(** * Rice Quality Analyzer: a shallow embedding of [app.py]

    The application is a Streamlit script.  Every user interaction re-executes
    [main] from the top against the per-session store [st.session_state].
    The embedding keeps that shape: a script run is a computation in a small
    state-and-control monad over the session store, the elements written to
    the page (each with the container it went to) and a log of the calls
    that leave the script; the collaborators the script calls but does not
    implement (Pillow, the Groq client, reportlab's layout, the widget
    values of the current run, the process environment) are gathered in a
    record that every run receives.

    Python [str] values are held as [string], i.e. as their UTF-8 bytes. *)

From Stdlib Require Import ZArith List String Ascii QArith.
From Stdlib.Strings Require Import Byte.
From stdpp Require Import base option list strings gmap.

Local Open Scope string_scope.
Local Open Scope list_scope.

(** ** Python strings *)

Module PyStr.

Definition newline : ascii := "010"%char.
Definition dquote : ascii := "034"%char.

(** [s.replace(old, new)] for a one-character [old]: every occurrence of
    the character is substituted, left to right. *)
Fixpoint replace (old : ascii) (new s : string) : string :=
  match s with
  | EmptyString => EmptyString
  | String c rest =>
      if Ascii.eqb c old then new +:+ replace old new rest
      else String c (replace old new rest)
  end.

(** [s.split(sep)] for a one-character [sep]. *)
Fixpoint split (sep : ascii) (s : string) : list string :=
  match s with
  | EmptyString => [EmptyString]
  | String c rest =>
      if Ascii.eqb c sep then EmptyString :: split sep rest
      else match split sep rest with
           | [] => [String c EmptyString]
           | piece :: pieces => String c piece :: pieces
           end
  end.


(** Number of occurrences of a character. *)
Fixpoint count (c : ascii) (s : string) : nat :=
  match s with
  | EmptyString => 0
  | String d rest => (if Ascii.eqb d c then 1 else 0) + count c rest
  end.

Definition lower_char (c : ascii) : ascii :=
  let n := nat_of_ascii c in
  if (65 <=? n)%nat && (n <=? 90)%nat then ascii_of_nat (n + 32) else c.

(** [s.lower()] on the ASCII letters; other bytes are left alone. *)
Fixpoint lower (s : string) : string :=
  match s with
  | EmptyString => EmptyString
  | String c rest => String (lower_char c) (lower rest)
  end.

(** Truth value of a string: empty is false. *)
Definition nonempty (s : string) : bool :=
  match s with EmptyString => false | String _ _ => true end.

End PyStr.

(** ** Base64 (RFC 4648, the alphabet of [base64.b64encode]) *)

Module Base64.

Definition sextet : Type := bool * bool * bool * bool * bool * bool.

Definition alphabet : string :=
  "ABCDEFGHIJKLMNOPQRSTUVWXYZabcdefghijklmnopqrstuvwxyz0123456789+/".

Definition pad : ascii := "="%char.

Definition bit (b : bool) (w : nat) : nat := if b then w else 0.

(** A sextet is read most significant bit first. *)
Definition sextet_value (s : sextet) : nat :=
  let '(b5, b4, b3, b2, b1, b0) := s in
  bit b5 32 + bit b4 16 + bit b3 8 + bit b2 4 + bit b1 2 + bit b0 1.

Definition sextet_of_value (n : nat) : sextet :=
  (Nat.testbit n 5, Nat.testbit n 4, Nat.testbit n 3,
   Nat.testbit n 2, Nat.testbit n 1, Nat.testbit n 0).

Definition char_of_sextet (s : sextet) : ascii :=
  match String.get (sextet_value s) alphabet with
  | Some c => c
  | None => pad
  end.

Fixpoint position (c : ascii) (s : string) : option nat :=
  match s with
  | EmptyString => None
  | String d rest =>
      if Ascii.eqb c d then Some 0
      else match position c rest with
           | Some n => Some (S n)
           | None => None
           end
  end.

Definition sextet_of_char (c : ascii) : option sextet :=
  match position c alphabet with
  | Some n => Some (sextet_of_value n)
  | None => None
  end.

(** The eight bits of a byte, most significant first. *)
Definition bits (x : byte) :
  bool * bool * bool * bool * bool * bool * bool * bool :=
  let '(b0, (b1, (b2, (b3, (b4, (b5, (b6, b7))))))) := Byte.to_bits x in
  (b7, b6, b5, b4, b3, b2, b1, b0).

Definition byte_of_bits (b7 b6 b5 b4 b3 b2 b1 b0 : bool) : byte :=
  Byte.of_bits (b0, (b1, (b2, (b3, (b4, (b5, (b6, b7))))))).

(** Three bytes make four characters; one or two trailing bytes are
    zero-extended and the group is completed with [=]. *)
Fixpoint b64encode (data : list byte) : string :=
  match data with
  | [] => EmptyString
  | [x] =>
      let '(x7, x6, x5, x4, x3, x2, x1, x0) := bits x in
      String (char_of_sextet (x7, x6, x5, x4, x3, x2))
        (String (char_of_sextet (x1, x0, false, false, false, false))
           (String pad (String pad EmptyString)))
  | [x; y] =>
      let '(x7, x6, x5, x4, x3, x2, x1, x0) := bits x in
      let '(y7, y6, y5, y4, y3, y2, y1, y0) := bits y in
      String (char_of_sextet (x7, x6, x5, x4, x3, x2))
        (String (char_of_sextet (x1, x0, y7, y6, y5, y4))
           (String (char_of_sextet (y3, y2, y1, y0, false, false))
              (String pad EmptyString)))
  | x :: y :: z :: rest =>
      let '(x7, x6, x5, x4, x3, x2, x1, x0) := bits x in
      let '(y7, y6, y5, y4, y3, y2, y1, y0) := bits y in
      let '(z7, z6, z5, z4, z3, z2, z1, z0) := bits z in
      String (char_of_sextet (x7, x6, x5, x4, x3, x2))
        (String (char_of_sextet (x1, x0, y7, y6, y5, y4))
           (String (char_of_sextet (y3, y2, y1, y0, z7, z6))
              (String (char_of_sextet (z5, z4, z3, z2, z1, z0))
                 (b64encode rest))))
  end.

(** Strict decoding: groups of four characters, padding only in the last
    group, anything else is rejected. *)
Fixpoint b64decode (s : string) : option (list byte) :=
  match s with
  | EmptyString => Some []
  | String c1 (String c2 (String c3 (String c4 rest))) =>
      match sextet_of_char c1, sextet_of_char c2 with
      | Some (p5, p4, p3, p2, p1, p0), Some (q5, q4, q3, q2, q1, q0) =>
          let x := byte_of_bits p5 p4 p3 p2 p1 p0 q5 q4 in
          if Ascii.eqb c3 pad then
            if Ascii.eqb c4 pad && negb (PyStr.nonempty rest)
            then Some [x] else None
          else
            match sextet_of_char c3 with
            | Some (r5, r4, r3, r2, r1, r0) =>
                let y := byte_of_bits q3 q2 q1 q0 r5 r4 r3 r2 in
                if Ascii.eqb c4 pad then
                  if negb (PyStr.nonempty rest) then Some [x; y] else None
                else
                  match sextet_of_char c4 with
                  | Some (t5, t4, t3, t2, t1, t0) =>
                      let z := byte_of_bits r1 r0 t5 t4 t3 t2 t1 t0 in
                      match b64decode rest with
                      | Some more => Some (x :: y :: z :: more)
                      | None => None
                      end
                  | None => None
                  end
            | None => None
            end
      | _, _ => None
      end
  | _ => None
  end.

End Base64.

(** ** Values, collaborators and the page *)

(** The values that reach [st.session_state['analysis_result']]: [None] or a
    [str]. *)
Inductive pyval : Type :=
| PNone
| PStr (s : string).

(** Python truth value, as tested by [if x:] and [if not x:]. *)
Definition truthy (v : pyval) : bool :=
  match v with
  | PNone => false
  | PStr s => PyStr.nonempty s
  end.

(** [f"{v}"]. *)
Definition py_format (v : pyval) : string :=
  match v with
  | PNone => "None"
  | PStr s => s
  end.

(** Result of a library call that the script guards with [try]: a value or
    an exception, kept as its [str(e)]. *)
Inductive result (A : Type) : Type :=
| Ok (a : A)
| Raise (msg : string).
Arguments Ok {A} a.
Arguments Raise {A} msg.

Record uploaded_file : Type := {
  file_name : string;
  file_bytes : list byte
}.

(** A decoded [PIL.Image]: its [format] attribute ([None] for an image that
    was not read from a file) and its raster. *)
Record image : Type := {
  format : option string;
  raster : list byte
}.

(** The keyword arguments of [client.chat.completions.create]. *)
Record request : Type := {
  model : string;
  prompt_text : string;
  image_url : string;
  temperature : Q;
  max_tokens : Z;
  top_p : Q
}.

Record message : Type := { content : pyval }.
Record response : Type := { choices : list message }.

Definition client : Type := request -> result response.

(** reportlab flowables, as the script builds them. *)
Inductive style : Type := StyleTitle | StyleBodyText.

Inductive flowable : Type :=
| Paragraph (markup : string) (sty : style)
| Spacer (width height : Z).

(** [reportlab.lib.pagesizes.letter], in points. *)
Definition letter : Z * Z := (612, 792)%Z.

(** An [io.BytesIO]: contents and stream position. *)
Record bytes_io : Type := {
  getvalue : list byte;
  tell : nat
}.

(** What one script run receives from outside the script: the environment,
    the libraries it calls, the clock, and the widget values of this run.

    - [st_image] is [st.image] loading the raster of an opened image: it
      can raise after [Image.open] succeeded (a truncated file).
    - [paragraph_error] is the markup parser behind [Paragraph(...)]: the
      message of the [ValueError] it raises for markup it rejects, if any.
    - [doc_build] is [doc.build]: the bytes it writes depend on the page
      size, the story and the time of the build, which reportlab stamps
      into the document; [now] is the clock reading of this run. *)
Record platform : Type := {
  os_environ : gmap string string;
  dotenv_file : gmap string string;
  Image_open : uploaded_file -> result image;
  Image_save : image -> option string -> result (list byte);
  st_image : image -> result unit;
  Groq : string -> client;
  paragraph_error : string -> option string;
  doc_build : Z * Z -> list flowable -> Z -> list byte;
  now : Z;
  file_uploader : option uploaded_file;
  clear_clicked : bool;
  analyze_clicked : bool
}.

Inductive container : Type := MainArea | Sidebar.

Inductive element : Type :=
| PageConfig (page_title page_icon layout initial_sidebar_state : string)
| Markdown (body : string) (unsafe_allow_html : bool)
| Title (text : string)
| Subheader (text : string)
| Error (text : string)
| Button (label : string)
| FileUploader (label : string) (types : list string)
| Picture (img : image) (caption : string) (use_column_width : bool)
| Spinner (text : string)
| DownloadButton (label : string) (data : bytes_io) (name mime : string).

(** Calls that leave the script: to the hosted model and to the layout
    engine.  The log only records that a call was made. *)
Inductive call : Type :=
| ChatCompletion (req : request)
| DocBuild (story : list flowable).

(** The state of a run: the session store, the elements written so far
    with the container each went to, the log of calls, and the container
    that [st.*] calls currently write to ([with st.sidebar:] redirects
    them, also inside the functions called from the block). *)
Record world : Type := {
  session_state : gmap string pyval;
  page : list (container * element);
  calls : list call;
  target : container
}.

(** ** The script monad *)

(** How a piece of script ends: it returns, [st.stop()] or [st.rerun()]
    unwinds the run, or an exception nobody catches does. *)
Inductive outcome (A : Type) : Type :=
| Ret (a : A)
| Stopped
| Rerun
| Uncaught (msg : string).
Arguments Ret {A} a.
Arguments Stopped {A}.
Arguments Rerun {A}.
Arguments Uncaught {A} msg.

Definition script (A : Type) : Type := world -> outcome A * world.

Definition ret {A : Type} (a : A) : script A := fun w => (Ret a, w).

Definition bind {A B : Type} (m : script A) (k : A -> script B) : script B :=
  fun w =>
    match m w with
    | (Ret a, w') => k a w'
    | (Stopped, w') => (Stopped, w')
    | (Rerun, w') => (Rerun, w')
    | (Uncaught e, w') => (Uncaught e, w')
    end.

Declare Scope script_scope.
Delimit Scope script_scope with script.
Notation "x <- m ;; k" := (bind m (fun x => k))
  (at level 100, m at next level, right associativity) : script_scope.
Notation "m ;; k" := (bind m (fun _ => k))
  (at level 100, right associativity) : script_scope.
Local Open Scope script_scope.

Definition emit (e : element) : script unit :=
  fun w => (Ret tt, {| session_state := session_state w;
                       page := page w ++ [(target w, e)];
                       calls := calls w;
                       target := target w |}).

Definition retarget (c : container) (w : world) : world :=
  {| session_state := session_state w;
     page := page w;
     calls := calls w;
     target := c |}.

(** [with container: body]: the body writes to [c]; the previous target is
    back when the block is left, however it is left. *)
Definition within {A : Type} (c : container) (body : script A) : script A :=
  fun w =>
    let '(o, w') := body (retarget c w) in
    (o, retarget (target w) w').

Definition record_call (c : call) : script unit :=
  fun w => (Ret tt, {| session_state := session_state w;
                       page := page w;
                       calls := calls w ++ [c];
                       target := target w |}).

Definition st_stop {A : Type} : script A := fun w => (Stopped, w).
Definition st_rerun {A : Type} : script A := fun w => (Rerun, w).
Definition uncaught {A : Type} (msg : string) : script A :=
  fun w => (Uncaught msg, w).

(** [st.session_state.get(key)]. *)
Definition session_get (key : string) : script pyval :=
  fun w => (Ret (default PNone (session_state w !! key)), w).

(** [st.session_state.<key> = v]. *)
Definition session_set (key : string) (v : pyval) : script unit :=
  fun w => (Ret tt, {| session_state := <[key := v]> (session_state w);
                       page := page w;
                       calls := calls w;
                       target := target w |}).

(** [st.session_state.pop(key, None)]. *)
Definition session_pop (key : string) : script unit :=
  fun w => (Ret tt, {| session_state := delete key (session_state w);
                       page := page w;
                       calls := calls w;
                       target := target w |}).

(** ** Configuration constants *)

Definition PAGE_CONFIG : element :=
  PageConfig "Rice Quality Analyzer" "🌾" "wide" "expanded".

Definition ALLOWED_FILE_TYPES : list string := ["png"; "jpg"; "jpeg"].

Definition CSS_STYLES : string := "
<style>
    .main { background-color: #f4f9f9; color: #000000; }
    .sidebar .sidebar-content { background-color: #d1e7dd; }
    .stTextInput textarea { color: #000000 !important; }
    .stButton>button { 
        background-color: #21eeef; 
        color: white; 
        font-size: 16px; 
        border-radius: 5px; 
    }
    .report-container {
        background-color: #ffffff;
        border-radius: 15px;
        padding: 20px;
        margin-top: 20px;
        box-shadow: 0 4px 6px rgba(0, 0, 0, 0.1);
        border-left: 5px solid #21eeef;
    }
    .report-text {
        font-family: 'Arial', sans-serif;
        font-size: 14px;
        line-height: 1.6;
        color: #2c3e50;
    }
</style>
".

Definition FEATURES : string := "
        - **Rice Type Classification** (e.g., Basmati, Jasmine, Indica)
        - **Quality Check** (Broken grains %, impurities %, discoloration %)
        - **Foreign Object Detection** (Husks, stones, debris)
        - **Grain Size & Shape Analysis**
        - **Processing Recommendations**
        ".

Definition API_KEY_NAME : string := "GROQ_API_KEY".
Definition RESULT_KEY : string := "analysis_result".

Definition PROMPT : string :=
  "Analyze the rice grain image and provide a detailed report including:"
  +:+ String PyStr.newline
  ("1. Rice type classification" +:+ String PyStr.newline
  ("2. Quality assessment (broken grains %, discoloration %, impurities %)"
  +:+ String PyStr.newline
  ("3. Foreign object detection" +:+ String PyStr.newline
  ("4. Size and shape consistency" +:+ String PyStr.newline
   "5. Recommendations for processing or improvement")))).

(** ** Core functions *)

Definition configure_application : script unit :=
  emit PAGE_CONFIG ;;
  emit (Markdown CSS_STYLES true).

(** [load_dotenv()] adds the entries of the [.env] file to the environment
    without overriding a variable that is already set. *)
Definition load_dotenv (p : platform) : gmap string string :=
  os_environ p ∪ dotenv_file p.

Definition getenv (env : gmap string string) (name : string) : pyval :=
  match env !! name with
  | Some v => PStr v
  | None => PNone
  end.

Definition initialize_api_client (p : platform) : script client :=
  let api_key := getenv (load_dotenv p) API_KEY_NAME in
  (if negb (truthy api_key)
   then emit
          (Error "API key not found. Please verify .env configuration.") ;;
        st_stop
   else ret tt) ;;
  ret (Groq p (py_format api_key)).

Definition process_image_data (p : platform) (uploaded : uploaded_file)
  : script (pyval * option string) :=
  let failed (e : string) :=
    emit (Error ("Image processing error: " +:+ e)) ;;
    ret (PNone, None) in
  match Image_open p uploaded with
  | Raise e => failed e
  | Ok image =>
      match Image_save p image (format image) with
      | Raise e => failed e
      | Ok buffer => ret (PStr (Base64.b64encode buffer), format image)
      end
  end.

Definition report_story (report_text : string) : list flowable :=
  [ Paragraph "<b>Rice Quality Report</b>" StyleTitle;
    Spacer 1 12;
    Paragraph (PyStr.replace PyStr.newline "<br/>" report_text)
      StyleBodyText ].

(** [Paragraph(markup, style)]: the constructor parses the markup and
    raises on what it rejects. *)
Definition new_paragraph (p : platform) (markup : string) (sty : style)
  : script flowable :=
  match paragraph_error p markup with
  | Some msg => uncaught msg
  | None => ret (Paragraph markup sty)
  end.

Definition generate_pdf_report (p : platform) (report_text : pyval)
  : script bytes_io :=
  title <- new_paragraph p "<b>Rice Quality Report</b>" StyleTitle ;;
  match report_text with
  | PNone =>
      uncaught "AttributeError: 'NoneType' object has no attribute 'replace'"
  | PStr text =>
      content <-
        new_paragraph p (PyStr.replace PyStr.newline "<br/>" text)
          StyleBodyText ;;
      let story := [title; Spacer 1 12; content] in
      record_call (DocBuild story) ;;
      let written := doc_build p letter story (now p) in
      let buffer := {| getvalue := written; tell := length written |} in
      (* buffer.seek(0) *)
      ret {| getvalue := getvalue buffer; tell := 0 |}
  end.

Definition build_request (url : string) : request :=
  {| model := "llama-3.2-11b-vision-preview";
     prompt_text := PROMPT;
     image_url := url;
     temperature := 2 # 10;
     max_tokens := 400;
     top_p := 5 # 10 |}.

Definition data_url (img_format base64_image : string) : string :=
  "data:image/" +:+ PyStr.lower img_format +:+ ";base64," +:+ base64_image.

Definition generate_rice_report (p : platform) (uploaded : uploaded_file)
    (cl : client) : script pyval :=
  r <- process_image_data p uploaded ;;
  let '(base64_image, img_format) := r in
  if negb (truthy base64_image) then ret PNone
  else
    match img_format with
    | None =>
        uncaught "AttributeError: 'NoneType' object has no attribute 'lower'"
    | Some fmt =>
        let req := build_request (data_url fmt (py_format base64_image)) in
        let failed (e : string) :=
          emit (Error ("API communication error: " +:+ e)) ;;
          ret PNone in
        record_call (ChatCompletion req) ;;
        match cl req with
        | Raise e => failed e
        | Ok resp =>
            match choices resp with
            | [] => failed "list index out of range"
            | first :: _ => ret (content first)
            end
        end
    end.

(** ** UI components *)

Definition report_html (text : string) : string :=
  let q := String PyStr.dquote EmptyString in
  "<div class=" +:+ q +:+ "report-container" +:+ q +:+ ">"
  +:+ "<div class=" +:+ q +:+ "report-text" +:+ q +:+ ">"
  +:+ text +:+ "</div></div>".

Definition display_main_interface (p : platform) : script unit :=
  emit (Title "🌾 Rice Quality Analyzer") ;;
  emit (Subheader "AI-Powered Rice Grain Inspection") ;;
  emit (Markdown "---" false) ;;
  stored <- session_get RESULT_KEY ;;
  (if truthy stored
   then
     emit (Markdown "### 📋 Analysis Report" false) ;;
     emit (Markdown (report_html (py_format stored)) true) ;;
     pdf_report <- generate_pdf_report p stored ;;
     emit
       (DownloadButton "📄 Download PDF Report" pdf_report
          "rice_quality_report.pdf" "application/pdf")
   else ret tt) ;;
  emit (Button "Clear Analysis 🗑️") ;;
  if clear_clicked p
  then session_pop RESULT_KEY ;; st_rerun
  else ret tt.

Definition render_sidebar (p : platform) (cl : client) : script unit :=
  within Sidebar
    (emit (Markdown "### Features" false) ;;
     emit (Markdown FEATURES false) ;;
     emit (Markdown "---" false) ;;
     emit (Subheader "Upload Rice Image") ;;
     emit (FileUploader "Select an image of rice grains" ALLOWED_FILE_TYPES) ;;
     match file_uploader p with
     | None => ret tt
     | Some uploaded =>
         match Image_open p uploaded with
         | Raise e => uncaught e
         | Ok preview =>
             match st_image p preview with
             | Raise e => uncaught e
             | Ok _ =>
                 emit (Picture preview "Uploaded Image" true) ;;
                 emit (Button "Analyze Rice Quality 🔍") ;;
                 if analyze_clicked p
                 then
                   emit
                     (Spinner
                        "Processing image... This may take a few seconds.") ;;
                   report <- generate_rice_report p uploaded cl ;;
                   session_set RESULT_KEY report ;;
                   st_rerun
                 else ret tt
             end
         end
     end).

(** ** Entry point *)

Definition main (p : platform) : script unit :=
  configure_application ;;
  groq_client <- initialize_api_client p ;;
  display_main_interface p ;;
  render_sidebar p groq_client.

(** One execution of the script against the session store. *)
Definition run_script (p : platform) (store : gmap string pyval)
  : outcome unit * world :=
  main p {| session_state := store; page := []; calls := [];
            target := MainArea |}.

(** The run that [st.rerun()] schedules: the same session, the buttons
    released, the uploader keeping its file. *)
Definition released (p : platform) : platform :=
  {| os_environ := os_environ p;
     dotenv_file := dotenv_file p;
     Image_open := Image_open p;
     Image_save := Image_save p;
     st_image := st_image p;
     Groq := Groq p;
     paragraph_error := paragraph_error p;
     doc_build := doc_build p;
     now := now p;
     file_uploader := file_uploader p;
     clear_clicked := false;
     analyze_clicked := false |}.

(** A user interaction: the run it triggers and, if that run asks for it,
    the rerun.  The page of the last run is what the user sees; the calls
    of both runs are kept. *)
Definition interaction (p : platform) (store : gmap string pyval)
  : outcome unit * world :=
  match run_script p store with
  | (Rerun, w) =>
      main (released p)
        {| session_state := session_state w; page := []; calls := calls w;
           target := MainArea |}
  | other => other
  end.

(** The two states of the interface, as [display_main_interface] tells them
    apart. *)
Definition result_present (store : gmap string pyval) : bool :=
  truthy (default PNone (store !! RESULT_KEY)).

Definition report_rendered (text : string) (w : world) : Prop :=
  In (MainArea, Markdown (report_html text) true) (page w).

(** ** Reading the platform *)

Definition api_key (p : platform) : pyval :=
  getenv (load_dotenv p) API_KEY_NAME.

(** A credential is configured when the variable, after [load_dotenv], holds
    a non-empty string. *)
Definition credential_configured (p : platform) : bool := truthy (api_key p).

(** Pillow's contract for [Image.open]: an image read from a file carries the
    format it was read as. *)
Definition open_sets_format (p : platform) : Prop :=
  forall f img, Image_open p f = Ok img -> format img <> None.

(** An encoded image is never empty: every supported format starts with a
    signature. *)
Definition save_writes_bytes (p : platform) : Prop :=
  forall img fmt, Image_save p img fmt <> Ok [].

(** The result of decoding and re-encoding an upload, outside the monad. *)
Inductive encoded : Type :=
| EncodeFailed (msg : string)
| Encoded (buffer : list byte) (fmt : option string).

Definition encode_upload (p : platform) (f : uploaded_file) : encoded :=
  match Image_open p f with
  | Raise e => EncodeFailed e
  | Ok img =>
      match Image_save p img (format img) with
      | Raise e => EncodeFailed e
      | Ok buffer => Encoded buffer (format img)
      end
  end.

Definition add_page (w : world) (es : list (container * element)) : world :=
  {| session_state := session_state w;
     page := page w ++ es;
     calls := calls w;
     target := target w |}.

Definition add_calls (w : world) (cs : list call) : world :=
  {| session_state := session_state w;
     page := page w;
     calls := calls w ++ cs;
     target := target w |}.

Definition with_store (w : world) (store : gmap string pyval) : world :=
  {| session_state := store; page := page w; calls := calls w;
     target := target w |}.

(** What the guarded model call yields: the text of the first choice, or the
    message of the exception that the [except] clause receives. *)
Definition first_answer (cl : client) (req : request) : result pyval :=
  match cl req with
  | Raise e => Raise e
  | Ok resp =>
      match choices resp with
      | [] => Raise "list index out of range"
      | first :: _ => Ok (content first)
      end
  end.

(** A world with nothing on the page yet, writing to the main area, and
    the same inside the sidebar block. *)
Definition blank (store : gmap string pyval) : world :=
  {| session_state := store; page := []; calls := []; target := MainArea |}.

Definition blank_sidebar : world :=
  {| session_state := ∅; page := []; calls := []; target := Sidebar |}.

(** The pipeline run on its own, inside the sidebar block where
    [render_sidebar] calls it: what it hands back, what it writes to the
    page and which calls it makes. *)
Definition pipeline_run (p : platform) (f : uploaded_file) (cl : client)
  : outcome pyval * world :=
  generate_rice_report p f cl blank_sidebar.

Definition pipeline_output (p : platform) (f : uploaded_file) (cl : client)
  : outcome pyval :=
  fst (pipeline_run p f cl).

Definition pipeline_page (p : platform) (f : uploaded_file) (cl : client)
  : list (container * element) :=
  page (snd (pipeline_run p f cl)).

Definition pipeline_calls (p : platform) (f : uploaded_file) (cl : client)
  : list call :=
  calls (snd (pipeline_run p f cl)).

(** The client that [main] builds for this run. *)
Definition groq_client (p : platform) : client :=
  Groq p (py_format (api_key p)).

Definition stored_result (store : gmap string pyval) : pyval :=
  default PNone (store !! RESULT_KEY).

(** The [ValueError] that [generate_pdf_report] dies on for a text, if the
    parser rejects the title or the body markup. *)
Definition markup_error (p : platform) (text : string) : option string :=
  match paragraph_error p "<b>Rice Quality Report</b>" with
  | Some msg => Some msg
  | None => paragraph_error p (PyStr.replace PyStr.newline "<br/>" text)
  end.

(** The exception that [display_main_interface] dies on for a stored value:
    only a stored non-empty text reaches the document generator. *)
Definition display_error (p : platform) (stored : pyval) : option string :=
  if truthy stored then markup_error p (py_format stored) else None.

(** The main interface is drawn down to the Clear button. *)
Definition display_completes (p : platform) (store : gmap string pyval)
  : bool :=
  match display_error p (stored_result store) with
  | None => true
  | Some _ => false
  end.

(** The preview of the sidebar: [st.image(Image.open(uploaded_file))]. *)
Definition preview (p : platform) (f : uploaded_file) : result image :=
  match Image_open p f with
  | Raise e => Raise e
  | Ok img =>
      match st_image p img with
      | Raise e => Raise e
      | Ok _ => Ok img
      end
  end.

(** The run reaches the call of [generate_rice_report]: a credential is
    configured, the main interface was drawn without an exception, Clear is
    not pressed, the upload could be previewed and Analyze is pressed. *)
Definition analysis_triggered (p : platform) (store : gmap string pyval)
  : option (uploaded_file * image) :=
  if credential_configured p && display_completes p store
     && negb (clear_clicked p) && analyze_clicked p
  then
    match file_uploader p with
    | Some f =>
        match preview p f with
        | Ok img => Some (f, img)
        | Raise _ => None
        end
    | None => None
    end
  else None.

(** The run reaches the Clear button and finds it pressed. *)
Definition clear_triggered (p : platform) (store : gmap string pyval)
  : bool :=
  credential_configured p && display_completes p store && clear_clicked p.

Definition is_download (ce : container * element) : bool :=
  match snd ce with
  | DownloadButton _ _ _ _ => true
  | _ => false
  end.

Definition is_doc_build (c : call) : bool :=
  match c with
  | DocBuild _ => true
  | ChatCompletion _ => false
  end.

Definition is_chat_completion (c : call) : bool :=
  match c with
  | ChatCompletion _ => true
  | DocBuild _ => false
  end.

(** ** Test doubles *)

Module Fixture.

Definition rice_png : uploaded_file :=
  {| file_name := "rice.png";
     file_bytes := [x89; x50; x4e; x47] |}.

Definition decoded : image :=
  {| format := Some "PNG"; raster := [x01; x02; x03] |}.

Definition encoded_bytes : list byte := [x89; x50; x4e; x47; x0d].

Definition answering (text : string) : client :=
  fun _ => Ok {| choices := [ {| content := PStr text |} ] |}.

Definition failing (msg : string) : client := fun _ => Raise msg.

(** A markup parser that rejects a break element left open. *)
Definition rejects_bare_break (markup : string) : option string :=
  if String.eqb markup "<br>" then Some "unclosed tag: br" else None.

(** A layout engine that stamps the time of the build into the bytes. *)
Definition stamping (_ : Z * Z) (story : list flowable) (t : Z)
  : list byte :=
  repeat x25 (length story) ++ [if (t =? 0)%Z then x30 else x31].

(** A platform with a decodable upload and a mocked model. *)
Definition mocked (key : option string) (cl : client)
    (clear analyze : bool) : platform :=
  {| os_environ :=
       match key with
       | Some k => {[ API_KEY_NAME := k ]}
       | None => ∅
       end;
     dotenv_file := ∅;
     Image_open := fun _ => Ok decoded;
     Image_save := fun _ _ => Ok encoded_bytes;
     st_image := fun _ => Ok tt;
     Groq := fun _ => cl;
     paragraph_error := rejects_bare_break;
     doc_build := stamping;
     now := 0;
     file_uploader := Some rice_png;
     clear_clicked := clear;
     analyze_clicked := analyze |}.

Definition no_credential : platform :=
  mocked None (answering "ok") false true.

Definition analyze_fails : platform :=
  mocked (Some "gsk") (failing "timeout") false true.

Definition analyze_answers : platform :=
  mocked (Some "gsk") (answering "Basmati, 3% broken") false true.


Definition clearing : platform :=
  mocked (Some "gsk") (answering "ok") true false.

Definition old_store : gmap string pyval :=
  {[ RESULT_KEY := PStr "old report" ]}.

End Fixture.

(** ** The page, piece by piece *)

Definition PREAMBLE : list (container * element) :=
  [ (MainArea, PAGE_CONFIG); (MainArea, Markdown CSS_STYLES true) ].

Definition HEADING : list (container * element) :=
  [ (MainArea, Title "🌾 Rice Quality Analyzer");
    (MainArea, Subheader "AI-Powered Rice Grain Inspection");
    (MainArea, Markdown "---" false) ].

Definition CLEAR_BUTTON : container * element :=
  (MainArea, Button "Clear Analysis 🗑️").

Definition pdf_of (p : platform) (text : string) : bytes_io :=
  {| getvalue := doc_build p letter (report_story text) (now p);
     tell := 0 |}.

(** The report as drawn for a stored text: heading and container, and the
    download button unless the document generator raised. *)
Definition report_block (p : platform) (text : string)
  : list (container * element) :=
  [ (MainArea, Markdown "### 📋 Analysis Report" false);
    (MainArea, Markdown (report_html text) true) ]
  ++ match markup_error p text with
     | None =>
         [ (MainArea,
            DownloadButton "📄 Download PDF Report" (pdf_of p text)
              "rice_quality_report.pdf" "application/pdf") ]
     | Some _ => []
     end.

Definition SIDEBAR_HEAD : list (container * element) :=
  [ (Sidebar, Markdown "### Features" false);
    (Sidebar, Markdown FEATURES false);
    (Sidebar, Markdown "---" false);
    (Sidebar, Subheader "Upload Rice Image");
    (Sidebar,
     FileUploader "Select an image of rice grains" ALLOWED_FILE_TYPES) ].

Definition upload_controls (preview : image) : list (container * element) :=
  [ (Sidebar, Picture preview "Uploaded Image" true);
    (Sidebar, Button "Analyze Rice Quality 🔍") ].

Definition SPINNER : container * element :=
  (Sidebar, Spinner "Processing image... This may take a few seconds.").

(** The main area as [display_main_interface] leaves it, and the calls it
    made, for a given stored value: the Clear button is drawn only if the
    document generator did not raise. *)
Definition main_area (p : platform) (stored : pyval)
  : list (container * element) :=
  HEADING
  ++ (if truthy stored then report_block p (py_format stored) else [])
  ++ match display_error p stored with
     | None => [CLEAR_BUTTON]
     | Some _ => []
     end.

Definition main_area_calls (p : platform) (stored : pyval) : list call :=
  if truthy stored
  then match markup_error p (py_format stored) with
       | None => [DocBuild (report_story (py_format stored))]
       | Some _ => []
       end
  else [].

(** The request that the pipeline sends for an encoded image. *)
Definition request_for (fmt : string) (buffer : list byte) : request :=
  build_request (data_url fmt (Base64.b64encode buffer)).

Definition image_error (c : container) (e : string) : container * element :=
  (c, Error ("Image processing error: " +:+ e)).

Definition api_error (c : container) (e : string) : container * element :=
  (c, Error ("API communication error: " +:+ e)).

(** The three ways the pipeline ends, each with what it leaves behind: the
    value returned, the message written and the request sent, if any. *)
Inductive pipeline_case (p : platform) (f : uploaded_file) (cl : client)
    (w : world) : outcome pyval * world -> Prop :=
| DecodeFailed (e : string) :
    encode_upload p f = EncodeFailed e ->
    pipeline_case p f cl w (Ret PNone, add_page w [image_error (target w) e])
| ModelFailed (buffer : list byte) (fmt e : string) :
    encode_upload p f = Encoded buffer (Some fmt) ->
    first_answer cl (request_for fmt buffer) = Raise e ->
    pipeline_case p f cl w
      (Ret PNone,
       add_page (add_calls w [ChatCompletion (request_for fmt buffer)])
         [api_error (target w) e])
| Answered (buffer : list byte) (fmt : string) (answer : pyval) :
    encode_upload p f = Encoded buffer (Some fmt) ->
    first_answer cl (request_for fmt buffer) = Ok answer ->
    pipeline_case p f cl w
      (Ret answer, add_calls w [ChatCompletion (request_for fmt buffer)]).

(** The analysis did not produce a report. *)
Definition pipeline_failed (p : platform) (f : uploaded_file) (cl : client)
  : Prop :=
  (exists e, encode_upload p f = EncodeFailed e) \/
  (exists buffer fmt e,
      encode_upload p f = Encoded buffer (Some fmt) /\
      first_answer cl (request_for fmt buffer) = Raise e).


(** ** Observations on pages and logs *)

Definition is_error (ce : container * element) : bool :=
  match snd ce with
  | Error _ => true
  | _ => false
  end.

Definition is_page_config (ce : container * element) : bool :=
  match snd ce with
  | PageConfig _ _ _ _ => true
  | _ => false
  end.

(** The number of requests to the hosted model in a log. *)
Definition requests_sent (cs : list call) : nat :=
  length (filter (fun c => is_chat_completion c = true) cs).


Definition at_main (store : gmap string pyval)
    (pg : list (container * element)) (cs : list call) : world :=
  {| session_state := store; page := pg; calls := cs; target := MainArea |}.

(** ** More test doubles *)

Module Scenario.

(** A model whose first choice carries no text. *)
Definition wordless : client :=
  fun _ => Ok {| choices := [ {| content := PNone |} ] |}.

(** A model that answers with no choice at all. *)
Definition choiceless : client := fun _ => Ok {| choices := [] |}.

Definition analyze_wordless : platform :=
  Fixture.mocked (Some "gsk") wordless false true.

Definition analyze_choiceless : platform :=
  Fixture.mocked (Some "gsk") choiceless false true.

(** Both buttons reported pressed in the same run. *)
Definition both_pressed : platform :=
  Fixture.mocked (Some "gsk") (Fixture.answering "ok") true true.

(** An upload that Pillow cannot open. *)
Definition corrupt : platform :=
  {| os_environ := {[ API_KEY_NAME := "gsk" ]};
     dotenv_file := ∅;
     Image_open := fun _ => Raise "cannot identify image file";
     Image_save := fun _ _ => Ok Fixture.encoded_bytes;
     st_image := fun _ => Ok tt;
     Groq := fun _ => Fixture.answering "ok";
     paragraph_error := Fixture.rejects_bare_break;
     doc_build := Fixture.stamping;
     now := 0;
     file_uploader := Some Fixture.rice_png;
     clear_clicked := false;
     analyze_clicked := true |}.

(** An upload that opens but whose raster cannot be loaded. *)
Definition truncated : platform :=
  {| os_environ := {[ API_KEY_NAME := "gsk" ]};
     dotenv_file := ∅;
     Image_open := fun _ => Ok Fixture.decoded;
     Image_save := fun _ _ => Raise "image file is truncated";
     st_image := fun _ => Raise "image file is truncated";
     Groq := fun _ => Fixture.answering "ok";
     paragraph_error := Fixture.rejects_bare_break;
     doc_build := Fixture.stamping;
     now := 0;
     file_uploader := Some Fixture.rice_png;
     clear_clicked := false;
     analyze_clicked := true |}.

(** The same run a moment later. *)
Definition later (p : platform) : platform :=
  {| os_environ := os_environ p;
     dotenv_file := dotenv_file p;
     Image_open := Image_open p;
     Image_save := Image_save p;
     st_image := st_image p;
     Groq := Groq p;
     paragraph_error := paragraph_error p;
     doc_build := doc_build p;
     now := now p + 1;
     file_uploader := file_uploader p;
     clear_clicked := clear_clicked p;
     analyze_clicked := analyze_clicked p |}.

(** A session whose stored text the markup parser rejects. *)
Definition stuck_store : gmap string pyval :=
  {[ RESULT_KEY := PStr "<br>" ]}.

(** A session that also holds a key of another page of the app. *)
Definition busy_store : gmap string pyval :=
  <[ "language" := PStr "en" ]> Fixture.old_store.

End Scenario.



(** ** Facts about the string operations *)

Section PyStrFacts.
Import PyStr.








End PyStrFacts.

(** ** Facts about Base64 *)

Section Base64Facts.
Import Base64.

Lemma sextet_char_inverse (s : sextet) :
  sextet_of_char (char_of_sextet s) = Some s.
Proof.
  destruct s as [[[[[b5 b4] b3] b2] b1] b0].
  destruct b5, b4, b3, b2, b1, b0; vm_compute; reflexivity.
Qed.

Lemma char_of_sextet_not_pad (s : sextet) :
  Ascii.eqb (char_of_sextet s) pad = false.
Proof.
  destruct s as [[[[[b5 b4] b3] b2] b1] b0].
  destruct b5, b4, b3, b2, b1, b0; vm_compute; reflexivity.
Qed.

Lemma byte_of_bits_bits (x : byte) :
  let '(x7, x6, x5, x4, x3, x2, x1, x0) := bits x in
  byte_of_bits x7 x6 x5 x4 x3 x2 x1 x0 = x.
Proof.
  unfold bits, byte_of_bits.
  pose proof (Byte.of_bits_to_bits x) as H.
  destruct (Byte.to_bits x) as [b0 [b1 [b2 [b3 [b4 [b5 [b6 b7]]]]]]].
  exact H.
Qed.

(** Induction three elements at a time, the stride of the encoder. *)
Lemma list_ind3 {A : Type} (P : list A -> Prop) :
  P [] -> (forall x, P [x]) -> (forall x y, P [x; y]) ->
  (forall x y z rest, P rest -> P (x :: y :: z :: rest)) ->
  forall l, P l.
Proof.
  intros H0 H1 H2 H3.
  fix go 1.
  intros [|x [|y [|z rest]]]; [exact H0 | apply H1 | apply H2 |].
  apply H3, go.
Qed.

Lemma b64decode_b64encode (data : list byte) :
  b64decode (b64encode data) = Some data.
Proof.
  induction data as [|x|x y|x y z rest IH] using list_ind3.
  - reflexivity.
  - cbn [b64encode].
    pose proof (byte_of_bits_bits x) as Hx.
    destruct (bits x) as [[[[[[[x7 x6] x5] x4] x3] x2] x1] x0].
    cbn [b64decode].
    rewrite !sextet_char_inverse. rewrite Ascii.eqb_refl. simpl.
    now rewrite Hx.
  - cbn [b64encode].
    pose proof (byte_of_bits_bits x) as Hx.
    pose proof (byte_of_bits_bits y) as Hy.
    destruct (bits x) as [[[[[[[x7 x6] x5] x4] x3] x2] x1] x0].
    destruct (bits y) as [[[[[[[y7 y6] y5] y4] y3] y2] y1] y0].
    cbn [b64decode].
    rewrite !sextet_char_inverse, char_of_sextet_not_pad.
    rewrite Ascii.eqb_refl. simpl.
    now rewrite Hx, Hy.
  - cbn [b64encode].
    pose proof (byte_of_bits_bits x) as Hx.
    pose proof (byte_of_bits_bits y) as Hy.
    pose proof (byte_of_bits_bits z) as Hz.
    destruct (bits x) as [[[[[[[x7 x6] x5] x4] x3] x2] x1] x0].
    destruct (bits y) as [[[[[[[y7 y6] y5] y4] y3] y2] y1] y0].
    destruct (bits z) as [[[[[[[z7 z6] z5] z4] z3] z2] z1] z0].
    cbn [b64decode].
    rewrite !sextet_char_inverse, !char_of_sextet_not_pad.
    now rewrite IH, Hx, Hy, Hz.
Qed.

End Base64Facts.



(** ** Running the pieces of the script *)

Section ScriptFacts.
Variable p : platform.

Lemma b64encode_nonempty (buffer : list byte) :
  buffer <> [] -> PyStr.nonempty (Base64.b64encode buffer) = true.
Proof.
  destruct buffer as [|x [|y [|z rest]]]; [congruence|..]; intros _;
    cbn [Base64.b64encode];
    repeat match goal with
           | |- context [Base64.bits ?b] =>
               destruct (Base64.bits b) as [[[[[[[? ?] ?] ?] ?] ?] ?] ?]
           end; reflexivity.
Qed.

Lemma process_image_data_run (f : uploaded_file) (w : world) :
  process_image_data p f w =
    match encode_upload p f with
    | EncodeFailed e =>
        (Ret (PNone, None),
         add_page w [image_error (target w) e])
    | Encoded buffer fmt => (Ret (PStr (Base64.b64encode buffer), fmt), w)
    end.
Proof.
  unfold process_image_data, encode_upload.
  destruct (Image_open p f) as [img|e]; [|reflexivity].
  destruct (Image_save p img (format img)); reflexivity.
Qed.

Lemma generate_rice_report_run (f : uploaded_file) (cl : client)
    (w : world) :
  generate_rice_report p f cl w =
    match encode_upload p f with
    | EncodeFailed e =>
        (Ret PNone,
         add_page w [image_error (target w) e])
    | Encoded [] _ => (Ret PNone, w)
    | Encoded _ None =>
        (Uncaught
           "AttributeError: 'NoneType' object has no attribute 'lower'", w)
    | Encoded buffer (Some fmt) =>
        let req := request_for fmt buffer in
        match first_answer cl req with
        | Raise e =>
            (Ret PNone,
             add_page (add_calls w [ChatCompletion req])
               [api_error (target w) e])
        | Ok answer => (Ret answer, add_calls w [ChatCompletion req])
        end
    end.
Proof.
  unfold generate_rice_report, bind. rewrite process_image_data_run.
  destruct (encode_upload p f) as [e|buffer fmt]; [reflexivity|].
  destruct buffer as [|x rest]; [reflexivity|].
  cbn [truthy]. rewrite b64encode_nonempty by discriminate.
  cbn [negb]. destruct fmt as [fmt|]; [|reflexivity].
  cbn [py_format]. unfold first_answer, record_call, emit.
  cbv zeta.
  destruct (cl _) as [resp|e]; [|reflexivity].
  destruct (choices resp); reflexivity.
Qed.

End ScriptFacts.


Section InterfaceFacts.
Variable p : platform.

Lemma generate_pdf_report_run (text : string) (w : world) :
  generate_pdf_report p (PStr text) w =
    match markup_error p text with
    | Some e => (Uncaught e, w)
    | None =>
        (Ret (pdf_of p text), add_calls w [DocBuild (report_story text)])
    end.
Proof.
  unfold generate_pdf_report, markup_error, new_paragraph, bind.
  destruct (paragraph_error p "<b>Rice Quality Report</b>");
    [reflexivity|].
  cbn [ret uncaught].
  destruct (paragraph_error p _); reflexivity.
Qed.

Lemma display_main_interface_run (w : world) :
  target w = MainArea ->
  let stored := stored_result (session_state w) in
  let shown :=
    {| session_state := session_state w;
       page := page w ++ main_area p stored;
       calls := calls w ++ main_area_calls p stored;
       target := MainArea |} in
  display_main_interface p w =
    match display_error p stored with
    | Some e => (Uncaught e, shown)
    | None =>
        if clear_clicked p
        then (Rerun, with_store shown (delete RESULT_KEY (session_state w)))
        else (Ret tt, shown)
    end.
Proof.
  intros Htarget. cbv zeta.
  unfold display_main_interface, main_area, main_area_calls, stored_result.
  unfold display_error, report_block.
  unfold bind, emit, session_get, session_pop, st_rerun, ret, with_store.
  cbn [session_state page calls target]. rewrite Htarget.
  destruct (default PNone (session_state w !! RESULT_KEY)) as [|text].
  - cbn [truthy]. cbn [session_state page calls target].
    rewrite app_nil_r, <- !app_assoc.
    destruct (clear_clicked p); reflexivity.
  - cbn [truthy py_format]. destruct (PyStr.nonempty text).
    + rewrite generate_pdf_report_run.
      destruct (markup_error p text) as [e|].
      * cbn [session_state page calls target].
        rewrite !app_nil_r, <- !app_assoc. reflexivity.
      * unfold add_calls. cbn [session_state page calls target].
        rewrite <- !app_assoc.
        destruct (clear_clicked p); reflexivity.
    + cbn [session_state page calls target].
      rewrite app_nil_r, <- !app_assoc.
      destruct (clear_clicked p); reflexivity.
Qed.

Lemma render_sidebar_run (cl : client) (w : world) :
  render_sidebar p cl w =
    let w1 := add_page w SIDEBAR_HEAD in
    match file_uploader p with
    | None => (Ret tt, w1)
    | Some f =>
        match preview p f with
        | Raise e => (Uncaught e, w1)
        | Ok img =>
            let w2 := add_page w1 (upload_controls img) in
            if analyze_clicked p
            then
              match generate_rice_report p f cl
                      (retarget Sidebar (add_page w2 [SPINNER])) with
              | (Ret report, w3) =>
                  (Rerun,
                   retarget (target w)
                     (with_store w3
                        (<[RESULT_KEY := report]> (session_state w3))))
              | (Stopped, w3) => (Stopped, retarget (target w) w3)
              | (Rerun, w3) => (Rerun, retarget (target w) w3)
              | (Uncaught e, w3) => (Uncaught e, retarget (target w) w3)
              end
            else (Ret tt, w2)
        end
    end.
Proof.
  unfold render_sidebar, preview, within, bind, emit, add_page, retarget.
  cbv zeta.
  cbn [session_state page calls target]. rewrite <- !app_assoc.
  destruct (file_uploader p) as [f|]; [|reflexivity].
  destruct (Image_open p f) as [img|e]; [|reflexivity].
  destruct (st_image p img) as [[]|e]; [|reflexivity].
  cbn [session_state page calls target]. rewrite <- !app_assoc.
  destruct (analyze_clicked p); [|reflexivity].
  cbn [session_state page calls target]. rewrite <- !app_assoc.
  cbn [app].
  destruct (generate_rice_report p f cl _) as [[report| | |e] w3];
    reflexivity.
Qed.

Lemma main_run (w : world) :
  target w = MainArea ->
  main p w =
    let w1 := add_page w PREAMBLE in
    if credential_configured p
    then
      match display_main_interface p w1 with
      | (Ret _, w2) => render_sidebar p (groq_client p) w2
      | (Stopped, w2) => (Stopped, w2)
      | (Rerun, w2) => (Rerun, w2)
      | (Uncaught e, w2) => (Uncaught e, w2)
      end
    else
      (Stopped,
       add_page w1
         [(MainArea,
           Error "API key not found. Please verify .env configuration.")]).
Proof.
  intros Htarget.
  unfold main, configure_application, initialize_api_client.
  unfold credential_configured, bind, emit, st_stop, ret, add_page.
  cbv zeta. fold (api_key p).
  cbn [session_state page calls target]. rewrite Htarget.
  destruct (truthy (api_key p)); cbn [negb session_state page calls target];
    rewrite <- ?app_assoc; reflexivity.
Qed.

End InterfaceFacts.


(** ** Whole runs *)

Section RunFacts.
Variable p : platform.

(** The pipeline only appends to the page and to the call log; what it
    returns does not depend on the world it starts in. *)
Lemma generate_rice_report_frame (f : uploaded_file) (cl : client)
    (w : world) :
  target w = Sidebar ->
  generate_rice_report p f cl w =
    (pipeline_output p f cl,
     {| session_state := session_state w;
        page := page w ++ pipeline_page p f cl;
        calls := calls w ++ pipeline_calls p f cl;
        target := Sidebar |}).
Proof.
  intros Htarget.
  unfold pipeline_output, pipeline_page, pipeline_calls, pipeline_run.
  rewrite !generate_rice_report_run.
  destruct w as [store pg cs tg]. cbn in Htarget. subst tg.
  destruct (encode_upload p f) as [e|buffer fmt].
  - cbn. rewrite app_nil_r. reflexivity.
  - destruct buffer as [|x rest].
    + cbn. rewrite !app_nil_r. reflexivity.
    + destruct fmt as [fmt|].
      * cbv zeta. destruct (first_answer cl _) as [answer|e];
          cbn; rewrite ?app_nil_r; reflexivity.
      * cbn. rewrite !app_nil_r. reflexivity.
Qed.

Lemma preview_ok (f : uploaded_file) (img : image) :
  preview p f = Ok img -> Image_open p f = Ok img.
Proof.
  unfold preview. destruct (Image_open p f) as [i|e]; [|discriminate].
  destruct (st_image p i); [|discriminate]. now intros [= ->].
Qed.

Lemma display_completes_error (store : gmap string pyval) :
  display_completes p store = true ->
  display_error p (stored_result store) = None.
Proof.
  unfold display_completes.
  destruct (display_error p (stored_result store)); [discriminate|].
  reflexivity.
Qed.

Lemma triggered_inv (store : gmap string pyval) (f : uploaded_file)
    (img : image) :
  analysis_triggered p store = Some (f, img) ->
  credential_configured p = true /\
  display_error p (stored_result store) = None /\
  clear_clicked p = false /\ analyze_clicked p = true /\
  file_uploader p = Some f /\ preview p f = Ok img.
Proof.
  unfold analysis_triggered.
  pose proof (display_completes_error store) as Hdisp.
  destruct (credential_configured p), (display_completes p store),
    (clear_clicked p), (analyze_clicked p); cbn; try discriminate.
  destruct (file_uploader p) as [f'|]; [|discriminate].
  destruct (preview p f') as [img'|e] eqn:Hprev; [|discriminate].
  intros [= <- <-]. auto 10.
Qed.

Lemma clear_triggered_inv (store : gmap string pyval) :
  clear_triggered p store = true ->
  credential_configured p = true /\
  display_error p (stored_result store) = None /\
  clear_clicked p = true.
Proof.
  unfold clear_triggered.
  pose proof (display_completes_error store) as Hdisp.
  destruct (credential_configured p), (display_completes p store),
    (clear_clicked p); cbn; try discriminate. auto.
Qed.

(** With the format set, the pipeline returns. *)
Lemma pipeline_returns (f : uploaded_file) (img : image) (cl : client) :
  Image_open p f = Ok img -> format img <> None ->
  exists report, pipeline_output p f cl = Ret report.
Proof.
  intros Hopen Hfmt.
  unfold pipeline_output, pipeline_run.
  rewrite generate_rice_report_run. unfold encode_upload. rewrite Hopen.
  destruct (Image_save p img (format img)) as [buffer|e]; [|eauto].
  destruct buffer as [|x rest]; [eauto|].
  destruct (format img) as [fmt|]; [|congruence].
  cbv zeta. destruct (first_answer cl _); eauto.
Qed.

(** Every run of [main] from the top, case by case: the outcome, the
    store, the page and the calls. *)
Lemma main_cases (store : gmap string pyval) (cs : list call) :
  main p (at_main store [] cs) =
    let drawn := PREAMBLE ++ main_area p (stored_result store) in
    let made := cs ++ main_area_calls p (stored_result store) in
    if credential_configured p
    then
      match display_error p (stored_result store) with
      | Some e => (Uncaught e, at_main store drawn made)
      | None =>
          if clear_clicked p
          then (Rerun, at_main (delete RESULT_KEY store) drawn made)
          else
            match file_uploader p with
            | None => (Ret tt, at_main store (drawn ++ SIDEBAR_HEAD) made)
            | Some f =>
                match preview p f with
                | Raise e =>
                    (Uncaught e,
                     at_main store (drawn ++ SIDEBAR_HEAD) made)
                | Ok img =>
                    if analyze_clicked p
                    then
                      let pg :=
                        drawn ++ SIDEBAR_HEAD ++ upload_controls img
                        ++ [SPINNER]
                        ++ pipeline_page p f (groq_client p) in
                      let sent :=
                        made ++ pipeline_calls p f (groq_client p) in
                      match pipeline_output p f (groq_client p) with
                      | Ret report =>
                          (Rerun,
                           at_main (<[RESULT_KEY := report]> store)
                             pg sent)
                      | Stopped => (Stopped, at_main store pg sent)
                      | Rerun => (Rerun, at_main store pg sent)
                      | Uncaught e => (Uncaught e, at_main store pg sent)
                      end
                    else
                      (Ret tt,
                       at_main store
                         (drawn ++ SIDEBAR_HEAD ++ upload_controls img)
                         made)
                end
            end
      end
    else
      (Stopped,
       at_main store
         (PREAMBLE
          ++ [(MainArea,
               Error
                 "API key not found. Please verify .env configuration.")])
         cs).
Proof.
  cbv zeta. unfold at_main.
  rewrite main_run by reflexivity. cbv zeta.
  destruct (credential_configured p); [|reflexivity].
  rewrite display_main_interface_run by reflexivity. cbv zeta.
  cbn [session_state page calls target add_page app].
  destruct (display_error p (stored_result store)) as [e|]; [reflexivity|].
  destruct (clear_clicked p); [reflexivity|].
  rewrite render_sidebar_run. cbv zeta.
  unfold add_page, with_store, retarget.
  cbn [session_state page calls target app].
  destruct (file_uploader p) as [f|];
    [|rewrite <- !app_assoc; reflexivity].
  destruct (preview p f) as [img|e];
    [|rewrite <- !app_assoc; reflexivity].
  destruct (analyze_clicked p); [|rewrite <- !app_assoc; reflexivity].
  rewrite generate_rice_report_frame by reflexivity.
  destruct (pipeline_output p f (groq_client p));
    cbn [session_state page calls target];
    rewrite <- !app_assoc; reflexivity.
Qed.

Lemma run_script_main (store : gmap string pyval) :
  run_script p store = main p (at_main store [] []).
Proof. reflexivity. Qed.

(** The run in which the analysis is triggered. *)
Lemma trigger_run (store : gmap string pyval) (f : uploaded_file)
    (img : image) (report : pyval) :
  analysis_triggered p store = Some (f, img) ->
  pipeline_output p f (groq_client p) = Ret report ->
  run_script p store =
    (Rerun,
     {| session_state := <[RESULT_KEY := report]> store;
        page := PREAMBLE ++ main_area p (stored_result store)
                ++ SIDEBAR_HEAD ++ upload_controls img ++ [SPINNER]
                ++ pipeline_page p f (groq_client p);
        calls := main_area_calls p (stored_result store)
                 ++ pipeline_calls p f (groq_client p);
        target := MainArea |}).
Proof.
  intros Htrig Hout.
  destruct (triggered_inv _ _ _ Htrig)
    as (Hcred & Hdisp & Hclear & Han & Hup & Hprev).
  rewrite run_script_main, main_cases. cbv zeta.
  rewrite Hcred, Hdisp, Hclear, Hup, Hprev, Han, Hout.
  unfold at_main. cbn [app]. now rewrite <- !app_assoc.
Qed.

(** The run in which Clear is pressed. *)
Lemma clear_run (store : gmap string pyval) :
  clear_triggered p store = true ->
  run_script p store =
    (Rerun,
     {| session_state := delete RESULT_KEY store;
        page := PREAMBLE ++ main_area p (stored_result store);
        calls := main_area_calls p (stored_result store);
        target := MainArea |}).
Proof.
  intros Hclear.
  destruct (clear_triggered_inv _ Hclear) as (Hcred & Hdisp & Hpress).
  rewrite run_script_main, main_cases. cbv zeta.
  now rewrite Hcred, Hdisp, Hpress.
Qed.

End RunFacts.


(** ** Interactions *)

Section InteractionFacts.
Variable p : platform.

Lemma stored_result_insert (store : gmap string pyval) (v : pyval) :
  stored_result (<[RESULT_KEY := v]> store) = v.
Proof. unfold stored_result. now rewrite lookup_insert_eq. Qed.

Lemma stored_result_delete (store : gmap string pyval) :
  stored_result (delete RESULT_KEY store) = PNone.
Proof. unfold stored_result. now rewrite lookup_delete_eq. Qed.

Lemma result_present_stored (store : gmap string pyval) :
  result_present store = truthy (stored_result store).
Proof. reflexivity. Qed.

(** The run that [st.rerun()] schedules, case by case: no button is
    pressed in it. *)
Lemma released_cases (store : gmap string pyval) (cs : list call) :
  credential_configured p = true ->
  main (released p) (at_main store [] cs) =
    let drawn := PREAMBLE ++ main_area p (stored_result store) in
    let made := cs ++ main_area_calls p (stored_result store) in
    match display_error p (stored_result store) with
    | Some e => (Uncaught e, at_main store drawn made)
    | None =>
        match file_uploader p with
        | None => (Ret tt, at_main store (drawn ++ SIDEBAR_HEAD) made)
        | Some f =>
            match preview p f with
            | Raise e =>
                (Uncaught e, at_main store (drawn ++ SIDEBAR_HEAD) made)
            | Ok img =>
                (Ret tt,
                 at_main store
                   (drawn ++ SIDEBAR_HEAD ++ upload_controls img) made)
            end
        end
    end.
Proof.
  intros Hcred. rewrite main_cases. cbv zeta.
  change (credential_configured (released p))
    with (credential_configured p).
  change (display_error (released p)) with (display_error p).
  change (main_area (released p)) with (main_area p).
  change (main_area_calls (released p)) with (main_area_calls p).
  change (preview (released p)) with (preview p).
  cbn [released file_uploader clear_clicked analyze_clicked].
  now rewrite Hcred.
Qed.

Lemma interaction_after_trigger (store : gmap string pyval)
    (f : uploaded_file) (img : image) (report : pyval) :
  analysis_triggered p store = Some (f, img) ->
  pipeline_output p f (groq_client p) = Ret report ->
  interaction p store =
    let kept := <[RESULT_KEY := report]> store in
    let made :=
      (main_area_calls p (stored_result store)
       ++ pipeline_calls p f (groq_client p))
      ++ main_area_calls p report in
    match display_error p report with
    | Some e =>
        (Uncaught e, at_main kept (PREAMBLE ++ main_area p report) made)
    | None =>
        (Ret tt,
         at_main kept
           ((PREAMBLE ++ main_area p report)
            ++ SIDEBAR_HEAD ++ upload_controls img)
           made)
    end.
Proof.
  intros Htrig Hout. unfold interaction.
  rewrite (trigger_run p store f img report Htrig Hout).
  destruct (triggered_inv _ _ _ _ Htrig)
    as (Hcred & _ & _ & _ & Hup & Hprev).
  cbn [session_state page calls].
  pose proof (released_cases (<[RESULT_KEY := report]> store)
                (main_area_calls p (stored_result store)
                 ++ pipeline_calls p f (groq_client p)) Hcred) as Hrun.
  unfold at_main in Hrun at 1. rewrite Hrun. cbv zeta.
  rewrite stored_result_insert, Hup, Hprev.
  reflexivity.
Qed.

(** A page drawn without a stored result offers neither a report nor a
    download. *)
Lemma page_without_result (v : pyval) (img : image) :
  truthy v = false ->
  let drawn :=
    (PREAMBLE ++ main_area p v) ++ SIDEBAR_HEAD ++ upload_controls img in
  (forall text, ~ In (MainArea, Markdown (report_html text) true) drawn) /\
  existsb is_download drawn = false.
Proof.
  intros Hv. cbv zeta. unfold main_area, display_error. rewrite Hv. split.
  - intros text Hin. cbn in Hin.
    repeat (destruct Hin as [Hin|Hin]; [discriminate|]).
    exact Hin.
  - reflexivity.
Qed.

(** A page drawn with a stored text shows it in the report container,
    whether or not the document generator raises afterwards. *)
Lemma page_with_result (text : string)
    (rest : list (container * element)) :
  PyStr.nonempty text = true ->
  In (MainArea, Markdown (report_html text) true)
    ((PREAMBLE ++ main_area p (PStr text)) ++ rest).
Proof.
  intros Hne. unfold main_area, report_block.
  cbn [truthy py_format]. rewrite Hne.
  apply in_or_app. left. cbn. auto 10.
Qed.

(** The pipeline on its own, case by case. *)
Lemma pipeline_on_model_failure (f : uploaded_file) (cl : client)
    (buffer : list byte) (fmt e : string) :
  encode_upload p f = Encoded buffer (Some fmt) -> buffer <> [] ->
  first_answer cl (request_for fmt buffer) = Raise e ->
  pipeline_run p f cl =
    (Ret PNone,
     {| session_state := ∅;
        page := [api_error Sidebar e];
        calls := [ChatCompletion (request_for fmt buffer)];
        target := Sidebar |}).
Proof.
  intros Henc Hne Hans. unfold pipeline_run.
  rewrite generate_rice_report_run, Henc.
  destruct buffer as [|x rest]; [congruence|].
  cbv zeta. rewrite Hans.
  reflexivity.
Qed.

Lemma pipeline_on_answer (f : uploaded_file) (cl : client)
    (buffer : list byte) (fmt : string) (answer : pyval) :
  encode_upload p f = Encoded buffer (Some fmt) -> buffer <> [] ->
  first_answer cl (request_for fmt buffer) = Ok answer ->
  pipeline_run p f cl =
    (Ret answer,
     {| session_state := ∅;
        page := [];
        calls := [ChatCompletion (request_for fmt buffer)];
        target := Sidebar |}).
Proof.
  intros Henc Hne Hans. unfold pipeline_run.
  rewrite generate_rice_report_run, Henc.
  destruct buffer as [|x rest]; [congruence|].
  cbv zeta. rewrite Hans.
  reflexivity.
Qed.

Lemma pipeline_failure_returns_none (f : uploaded_file) (cl : client)
    (report : pyval) :
  pipeline_failed p f cl ->
  pipeline_output p f cl = Ret report -> report = PNone.
Proof.
  unfold pipeline_output, pipeline_run.
  rewrite generate_rice_report_run.
  intros [[e Henc]|(buffer & fmt & e & Henc & Hans)]; rewrite Henc.
  - now intros [= <-].
  - destruct buffer as [|x rest]; [now intros [= <-]|].
    cbv zeta. rewrite Hans.
    now intros [= <-].
Qed.

End InteractionFacts.


(** ** Every run, case by case *)

Section RunCases.
Variable p : platform.

Lemma pipeline_output_cases (f : uploaded_file) (cl : client) :
  (exists report, pipeline_output p f cl = Ret report) \/
  (exists e, pipeline_output p f cl = Uncaught e).
Proof.
  unfold pipeline_output, pipeline_run. rewrite generate_rice_report_run.
  destruct (encode_upload p f) as [e|[|x rest] [fmt|]]; cbv zeta; eauto.
  destruct (first_answer cl _); eauto.
Qed.

(** What the pipeline sends: nothing, or one request for the encoded
    image. *)
Lemma pipeline_calls_cases (f : uploaded_file) (cl : client) :
  pipeline_calls p f cl = [] \/
  exists buffer fmt,
    encode_upload p f = Encoded buffer (Some fmt) /\ buffer <> [] /\
    pipeline_calls p f cl = [ChatCompletion (request_for fmt buffer)].
Proof.
  unfold pipeline_calls, pipeline_run. rewrite generate_rice_report_run.
  destruct (encode_upload p f) as [e|[|x rest] [fmt|]] eqn:Henc;
    cbv zeta; auto.
  right. exists (x :: rest), fmt.
  split; [reflexivity|]. split; [discriminate|].
  destruct (first_answer cl _); reflexivity.
Qed.

(** What the pipeline writes: nothing, or one error message, in the
    sidebar. *)
Lemma pipeline_page_cases (f : uploaded_file) (cl : client) :
  pipeline_page p f cl = [] \/
  exists msg, pipeline_page p f cl = [(Sidebar, Error msg)].
Proof.
  unfold pipeline_page, pipeline_run. rewrite generate_rice_report_run.
  destruct (encode_upload p f) as [e|[|x rest] [fmt|]];
    cbv zeta; eauto.
  destruct (first_answer cl _); cbn; eauto.
Qed.

Lemma run_script_cases (store : gmap string pyval) :
  run_script p store =
    let drawn := PREAMBLE ++ main_area p (stored_result store) in
    let made := main_area_calls p (stored_result store) in
    if credential_configured p
    then
      match display_error p (stored_result store) with
      | Some e => (Uncaught e, at_main store drawn made)
      | None =>
          if clear_clicked p
          then (Rerun, at_main (delete RESULT_KEY store) drawn made)
          else
            match file_uploader p with
            | None => (Ret tt, at_main store (drawn ++ SIDEBAR_HEAD) made)
            | Some f =>
                match preview p f with
                | Raise e =>
                    (Uncaught e,
                     at_main store (drawn ++ SIDEBAR_HEAD) made)
                | Ok img =>
                    if analyze_clicked p
                    then
                      let pg :=
                        drawn ++ SIDEBAR_HEAD ++ upload_controls img
                        ++ [SPINNER]
                        ++ pipeline_page p f (groq_client p) in
                      let sent :=
                        made ++ pipeline_calls p f (groq_client p) in
                      match pipeline_output p f (groq_client p) with
                      | Ret report =>
                          (Rerun,
                           at_main (<[RESULT_KEY := report]> store)
                             pg sent)
                      | Stopped => (Stopped, at_main store pg sent)
                      | Rerun => (Rerun, at_main store pg sent)
                      | Uncaught e => (Uncaught e, at_main store pg sent)
                      end
                    else
                      (Ret tt,
                       at_main store
                         (drawn ++ SIDEBAR_HEAD ++ upload_controls img)
                         made)
                end
            end
      end
    else
      (Stopped,
       at_main store
         (PREAMBLE
          ++ [(MainArea,
               Error
                 "API key not found. Please verify .env configuration.")])
         []).
Proof. rewrite run_script_main. exact (main_cases p store []). Qed.

End RunCases.


(** ** What a page can hold *)

Lemma append_cons (c : ascii) (a b : string) :
  String c a +:+ b = String c (a +:+ b).
Proof. reflexivity. Qed.

Lemma append_assoc (a b c : string) : (a +:+ b) +:+ c = a +:+ (b +:+ c).
Proof.
  induction a as [|x rest IH]; [reflexivity|].
  now rewrite !append_cons, IH.
Qed.

Lemma length_append (a b : string) :
  String.length (a +:+ b) = String.length a + String.length b.
Proof.
  induction a as [|c rest IH]; [reflexivity|].
  rewrite append_cons. cbn [String.length]. now rewrite IH.
Qed.

Lemma append_cancel_l (a x y : string) : a +:+ x = a +:+ y -> x = y.
Proof.
  induction a as [|c rest IH]; [trivial|].
  rewrite !append_cons. intros [= H]. auto.
Qed.

Lemma append_cancel_r (s x y : string) : x +:+ s = y +:+ s -> x = y.
Proof.
  revert y. induction x as [|c rest IH]; intros [|d y'] H.
  - reflexivity.
  - apply (f_equal String.length) in H.
    rewrite !length_append in H. cbn [String.length] in H. lia.
  - apply (f_equal String.length) in H.
    rewrite !length_append in H. cbn [String.length] in H. lia.
  - rewrite !append_cons in H. injection H as -> H.
    now rewrite (IH _ H).
Qed.

Lemma report_html_injective (a b : string) :
  report_html a = report_html b -> a = b.
Proof.
  unfold report_html. cbv zeta. intros H.
  repeat (apply append_cancel_l in H).
  now apply append_cancel_r in H.
Qed.

Lemma in_sidebar_not_main (e : element)
    (rest : list (container * element)) :
  Forall (fun ce => fst ce = Sidebar) rest -> ~ In (MainArea, e) rest.
Proof.
  intros Hside Hin. rewrite Forall_forall in Hside.
  apply list_elem_of_In, Hside in Hin. discriminate.
Qed.


Section PageFacts.
Variable p : platform.

Lemma main_area_in_main (v : pyval) :
  Forall (fun ce => fst ce = MainArea) (PREAMBLE ++ main_area p v).
Proof.
  unfold main_area, display_error, report_block.
  destruct (truthy v); [destruct (markup_error p _)|];
    repeat constructor.
Qed.

(** A report container among the elements of the main area is the one of
    the stored text. *)
Lemma report_in_main_area (v : pyval) (text : string) :
  In (MainArea, Markdown (report_html text) true)
    (PREAMBLE ++ main_area p v) ->
  v = PStr text /\ text <> "".
Proof.
  unfold main_area, display_error, report_block.
  destruct v as [|s]; cbn [truthy py_format].
  - intros Hin. cbn in Hin.
    repeat (destruct Hin as [Hin|Hin]; [discriminate|]). destruct Hin.
  - destruct s as [|c s'] eqn:Hs; cbn [PyStr.nonempty].
    + intros Hin. cbn in Hin.
      repeat (destruct Hin as [Hin|Hin]; [discriminate|]). destruct Hin.
    + rewrite <- Hs. intros Hin.
      assert (In (MainArea, Markdown (report_html text) true)
                [(MainArea, Markdown (report_html s) true)]) as Hone.
      { destruct (markup_error p s); cbn in Hin;
          repeat (destruct Hin as [Hin|Hin];
                  [first [discriminate | now left]|]);
          destruct Hin. }
      destruct Hone as [Hone|[]].
      assert (report_html s = report_html text) as Heq
        by exact (f_equal
                    (fun ce : container * element =>
                       match snd ce with
                       | Markdown body _ => body
                       | _ => EmptyString
                       end) Hone).
      apply report_html_injective in Heq.
      subst text. split; [reflexivity|]. subst s. discriminate.
Qed.

Lemma pipeline_page_in_sidebar (f : uploaded_file) (cl : client) :
  Forall (fun ce : container * element => fst ce = Sidebar)
    (pipeline_page p f cl).
Proof.
  destruct (pipeline_page_cases p f cl) as [->|[msg ->]];
    repeat constructor.
Qed.

(** With a credential the page of a run is the preamble and the main
    area, followed by what the sidebar drew. *)
Lemma run_page_shape (store : gmap string pyval) :
  credential_configured p = true ->
  exists rest,
    page (snd (run_script p store)) =
      (PREAMBLE ++ main_area p (stored_result store)) ++ rest /\
    Forall (fun ce => fst ce = Sidebar) rest.
Proof.
  intros Hcred. rewrite run_script_cases. cbv zeta. rewrite Hcred.
  destruct (display_error p (stored_result store)) as [e|].
  { exists []. split; [cbn; now rewrite app_nil_r | constructor]. }
  destruct (clear_clicked p).
  { exists []. split; [cbn; now rewrite app_nil_r | constructor]. }
  destruct (file_uploader p) as [f|].
  2:{ exists SIDEBAR_HEAD. split; [reflexivity | repeat constructor]. }
  destruct (preview p f) as [img|e].
  2:{ exists SIDEBAR_HEAD. split; [reflexivity | repeat constructor]. }
  destruct (analyze_clicked p).
  2:{ exists (SIDEBAR_HEAD ++ upload_controls img).
      split; [reflexivity | repeat constructor]. }
  exists (SIDEBAR_HEAD ++ upload_controls img ++ [SPINNER]
          ++ pipeline_page p f (groq_client p)).
  split.
  - destruct (pipeline_output p f (groq_client p)); reflexivity.
  - rewrite !Forall_app. repeat split; try (repeat constructor).
    apply pipeline_page_in_sidebar.
Qed.

End PageFacts.


(** ** Running the model on concrete inputs *)

Example b64encode_three_bytes :
  Base64.b64encode ["M"; "a"; "n"]%byte = "TWFu".
Proof. reflexivity. Qed.

Example b64encode_two_bytes : Base64.b64encode ["M"; "a"]%byte = "TWE=".
Proof. reflexivity. Qed.

Example b64encode_one_byte : Base64.b64encode ["M"]%byte = "TQ==".
Proof. reflexivity. Qed.

Example b64decode_rejects_stray_padding : Base64.b64decode "TQ=a" = None.
Proof. reflexivity. Qed.

Example replace_two_breaks :
  PyStr.replace PyStr.newline "<br/>"
    ("Type: Basmati" +:+ String PyStr.newline
       ("Broken: 3%" +:+ String PyStr.newline "Impurities: none")) =
  "Type: Basmati<br/>Broken: 3%<br/>Impurities: none".
Proof. reflexivity. Qed.

Example data_url_lowers_format :
  data_url "JPEG" "TQ==" = "data:image/jpeg;base64,TQ==".
Proof. reflexivity. Qed.

Example failed_analysis_sends_one_request :
  length
    (filter (fun c => is_chat_completion c = true)
       (calls (snd (interaction Fixture.analyze_fails Fixture.old_store)))) =
  1.
Proof. vm_compute. reflexivity. Qed.

Example answered_analysis_builds_one_document :
  length
    (filter (fun c => is_doc_build c = true)
       (calls (snd (interaction Fixture.analyze_answers ∅)))) = 1.
Proof. vm_compute. reflexivity. Qed.

(** A stored text that the markup parser rejects blocks the main interface:
    the run dies before the Clear button, and pressing Clear does not
    remove the key. *)
Example clear_unreachable_with_unparsable_report :
  run_script Scenario.both_pressed Scenario.stuck_store =
    (Uncaught "unclosed tag: br",
     at_main Scenario.stuck_store
       (PREAMBLE ++ HEADING
        ++ [ (MainArea, Markdown "### 📋 Analysis Report" false);
             (MainArea, Markdown (report_html "<br>") true) ])
       []).
Proof. vm_compute. reflexivity. Qed.

Example unopenable_upload_ends_run :
  fst (run_script Scenario.corrupt ∅) = Uncaught "cannot identify image file".
Proof. vm_compute. reflexivity. Qed.


(** * The claims *)

(** ** Startup *)

Lemma credential_missing_iff (p : platform) :
  credential_configured p = false <->
  load_dotenv p !! API_KEY_NAME = None \/
  load_dotenv p !! API_KEY_NAME = Some "".
Proof.
  unfold credential_configured, api_key, getenv.
  destruct (load_dotenv p !! API_KEY_NAME) as [[|c k]|]; cbn; split;
    intros H; try reflexivity; try discriminate; auto;
    destruct H as [H|H]; discriminate.
Qed.

(** C3.  Without a credential (the variable unset or empty after
    [load_dotenv]) the run stops right after the page configuration and the
    style sheet, with the error message on the page: nothing of the main
    interface or of the sidebar is drawn, the session store is untouched and
    no call leaves the script. *)
Theorem missing_credential_halts (p : platform)
    (store : gmap string pyval) :
  credential_configured p = false ->
  run_script p store =
    (Stopped,
     {| session_state := store;
        page := PREAMBLE
                ++ [(MainArea,
                     Error
                       "API key not found. Please verify .env configuration.")];
        calls := [];
        target := MainArea |}).
Proof.
  intros Hcred. unfold run_script. rewrite main_run by reflexivity.
  cbv zeta. rewrite Hcred. reflexivity.
Qed.

Lemma missing_credential_halts_witness :
  run_script Fixture.no_credential Fixture.old_store =
    (Stopped,
     {| session_state := Fixture.old_store;
        page := PREAMBLE
                ++ [(MainArea,
                     Error
                       "API key not found. Please verify .env configuration.")];
        calls := [];
        target := MainArea |}).
Proof.
  apply (missing_credential_halts Fixture.no_credential Fixture.old_store).
  vm_compute. reflexivity.
Defined.

(** ** Image encoding *)

(** C7.  Whenever [process_image_data] hands back a payload, decoding it
    gives exactly the bytes that Pillow wrote into the buffer; the format
    returned is the one of the opened image. *)
Theorem payload_decodes_to_encoded_bytes (p : platform) (f : uploaded_file)
    (w w' : world) (payload : string) (fmt : option string) :
  process_image_data p f w = (Ret (PStr payload, fmt), w') ->
  exists img buffer,
    Image_open p f = Ok img /\
    Image_save p img (format img) = Ok buffer /\
    fmt = format img /\
    payload = Base64.b64encode buffer /\
    Base64.b64decode payload = Some buffer.
Proof.
  unfold process_image_data, bind, emit, ret.
  destruct (Image_open p f) as [img|e] eqn:Hopen; [|discriminate].
  destruct (Image_save p img (format img)) as [buffer|e] eqn:Hsave;
    [|discriminate].
  intros [= <- <- <-]. exists img, buffer.
  repeat split; auto using b64decode_b64encode.
Qed.

Lemma payload_decodes_to_encoded_bytes_witness :
  exists img buffer,
    Image_open Fixture.analyze_fails Fixture.rice_png = Ok img /\
    Image_save Fixture.analyze_fails img (format img) = Ok buffer /\
    Some "PNG" = format img /\
    "iVBORw0=" = Base64.b64encode buffer /\
    Base64.b64decode "iVBORw0=" = Some buffer.
Proof.
  apply (payload_decodes_to_encoded_bytes Fixture.analyze_fails
           Fixture.rice_png (blank ∅) (blank ∅) "iVBORw0=" (Some "PNG")).
  vm_compute. reflexivity.
Defined.

(** C10.  With Pillow's contract for opened images, [process_image_data]
    returns a payload together with a format, or [None] twice; and
    [generate_rice_report] never reaches [img_format.lower()] with [None]:
    it always returns. *)
Theorem format_present_with_payload (p : platform) (f : uploaded_file)
    (cl : client) (w : world) :
  open_sets_format p ->
  ((exists payload fmt,
       process_image_data p f w = (Ret (PStr payload, Some fmt), w)) \/
   (exists e,
       process_image_data p f w =
         (Ret (PNone, None), add_page w [image_error (target w) e]))) /\
  (exists report w', generate_rice_report p f cl w = (Ret report, w')).
Proof.
  intros Hfmt. split.
  - rewrite process_image_data_run. unfold encode_upload.
    destruct (Image_open p f) as [img|e] eqn:Hopen; [|right; eauto].
    destruct (Image_save p img (format img)) as [buffer|e]; [|right; eauto].
    specialize (Hfmt f img Hopen).
    destruct (format img) as [fmt|]; [|congruence].
    left. eauto.
  - rewrite generate_rice_report_run. unfold encode_upload.
    destruct (Image_open p f) as [img|e] eqn:Hopen; [|eauto].
    destruct (Image_save p img (format img)) as [buffer|e]; [|eauto].
    specialize (Hfmt f img Hopen).
    destruct buffer as [|x rest]; [eauto|].
    destruct (format img) as [fmt|]; [|congruence].
    cbv zeta. destruct (first_answer cl _); eauto.
Qed.

Lemma mocked_opens_with_format key cl clear analyze :
  open_sets_format (Fixture.mocked key cl clear analyze).
Proof. intros f img [= <-]. discriminate. Defined.

Lemma mocked_writes_bytes key cl clear analyze :
  save_writes_bytes (Fixture.mocked key cl clear analyze).
Proof. intros img fmt. discriminate. Defined.

Lemma format_present_with_payload_witness :
  ((exists payload fmt,
       process_image_data Fixture.analyze_fails Fixture.rice_png (blank ∅) =
         (Ret (PStr payload, Some fmt), blank ∅)) \/
   (exists e,
       process_image_data Fixture.analyze_fails Fixture.rice_png (blank ∅) =
         (Ret (PNone, None),
          add_page (blank ∅) [image_error (target (blank ∅)) e]))) /\
  (exists report w',
      generate_rice_report Fixture.analyze_fails Fixture.rice_png
        (Fixture.failing "timeout") (blank ∅) = (Ret report, w')).
Proof.
  apply (format_present_with_payload Fixture.analyze_fails Fixture.rice_png
           (Fixture.failing "timeout") (blank ∅)).
  apply mocked_opens_with_format.
Defined.


(** ** The document generator *)




(** C8, as amended.  The generator reads no state of the application and
    changes none: whatever the session store, the page, the call log, the
    environment and the widgets are, its result for a text is fixed by the
    markup parser, the layout library and the time of the build; it leaves
    the store, the page and the target as they were and adds to the log at
    most its own layout call. *)
Theorem pdf_report_deterministic_stateless (p q : platform) (text : string)
    (w1 w2 : world) :
  paragraph_error p = paragraph_error q ->
  doc_build p = doc_build q -> now p = now q ->
  fst (generate_pdf_report p (PStr text) w1) =
    fst (generate_pdf_report q (PStr text) w2) /\
  session_state (snd (generate_pdf_report p (PStr text) w1)) =
    session_state w1 /\
  page (snd (generate_pdf_report p (PStr text) w1)) = page w1 /\
  target (snd (generate_pdf_report p (PStr text) w1)) = target w1 /\
  (calls (snd (generate_pdf_report p (PStr text) w1)) = calls w1 \/
   calls (snd (generate_pdf_report p (PStr text) w1)) =
     calls w1 ++ [DocBuild (report_story text)]).
Proof.
  intros Hparse Hlib Hnow. rewrite !generate_pdf_report_run.
  unfold markup_error, pdf_of. rewrite Hparse, Hlib, Hnow.
  destruct (paragraph_error q "<b>Rice Quality Report</b>");
    [repeat split; now left|].
  destruct (paragraph_error q _); repeat split; auto.
Qed.

Lemma pdf_report_deterministic_stateless_witness :
  fst (generate_pdf_report Fixture.no_credential (PStr "a") (blank ∅)) =
    fst (generate_pdf_report Fixture.clearing (PStr "a")
           (add_page (blank Fixture.old_store) [CLEAR_BUTTON])) /\
  session_state
    (snd (generate_pdf_report Fixture.no_credential (PStr "a") (blank ∅))) =
    session_state (blank ∅) /\
  page (snd (generate_pdf_report Fixture.no_credential (PStr "a") (blank ∅))) =
    page (blank ∅) /\
  target
    (snd (generate_pdf_report Fixture.no_credential (PStr "a") (blank ∅))) =
    target (blank ∅) /\
  (calls (snd (generate_pdf_report Fixture.no_credential (PStr "a")
                 (blank ∅))) = calls (blank ∅) \/
   calls (snd (generate_pdf_report Fixture.no_credential (PStr "a")
                 (blank ∅))) =
     calls (blank ∅) ++ [DocBuild (report_story "a")]).
Proof.
  apply (pdf_report_deterministic_stateless Fixture.no_credential
           Fixture.clearing "a" (blank ∅)
           (add_page (blank Fixture.old_store) [CLEAR_BUTTON])).
  - reflexivity.
  - reflexivity.
  - reflexivity.
Defined.

(** C8, as stated, fails: the same text laid out by the same library a
    moment later gives other bytes, because the layout stamps the time of
    the build into the document. *)
Lemma pdf_bytes_depend_on_build_time :
  fst (generate_pdf_report Fixture.clearing (PStr "a") (blank ∅)) <>
  fst (generate_pdf_report (Scenario.later Fixture.clearing) (PStr "a")
         (blank ∅)).
Proof. vm_compute. discriminate. Qed.

(** ** The report pipeline *)

(** C2.  With Pillow keeping its contract, the pipeline ends in one of
    three ways: the image could not be processed (the error is written,
    [None] is returned, nothing is sent); the model call failed (one request
    was sent, the error is written, [None] is returned); or the answer of
    the model is returned as it came, after one request.  No case sends a
    second request and none returns anything but [None] or the answer. *)
Theorem pipeline_answer_or_error (p : platform) (f : uploaded_file)
    (cl : client) (w : world) :
  open_sets_format p -> save_writes_bytes p ->
  pipeline_case p f cl w (generate_rice_report p f cl w).
Proof.
  intros Hfmt Hsave. rewrite generate_rice_report_run.
  destruct (encode_upload p f) as [e|buffer fmt] eqn:Henc.
  - now apply DecodeFailed.
  - assert (buffer <> [] /\ fmt <> None) as [Hne Hsome].
    { unfold encode_upload in Henc.
      destruct (Image_open p f) as [img|e] eqn:Hopen; [|discriminate].
      destruct (Image_save p img (format img)) as [b|e] eqn:Hs;
        [|discriminate].
      injection Henc as -> <-. split.
      - intros ->. exact (Hsave _ _ Hs).
      - exact (Hfmt _ _ Hopen). }
    destruct buffer as [|x rest]; [congruence|].
    destruct fmt as [fmt|]; [|congruence].
    cbv zeta.
    destruct (first_answer cl _) as [answer|e] eqn:Hans.
    + now apply Answered.
    + now apply ModelFailed.
Qed.

Lemma pipeline_answer_or_error_witness :
  pipeline_case Fixture.analyze_answers Fixture.rice_png
    (groq_client Fixture.analyze_answers) (blank ∅)
    (generate_rice_report Fixture.analyze_answers Fixture.rice_png
       (groq_client Fixture.analyze_answers) (blank ∅)).
Proof.
  apply (pipeline_answer_or_error Fixture.analyze_answers Fixture.rice_png
           (groq_client Fixture.analyze_answers) (blank ∅)).
  - apply mocked_opens_with_format.
  - apply mocked_writes_bytes.
Defined.


(** ** Failure of the model call *)

(** C1.  On a decodable upload with a model call that raises, the run
    writes the error message (to the sidebar), stores [None] and asks for a
    rerun; the rerun makes no call and offers no download, so the document
    generator is not invoked.  But the rerun draws the page anew, and the
    page the user is left with holds no error message. *)
Theorem model_failure_error_is_wiped :
  exists w w',
    run_script Fixture.analyze_fails Fixture.old_store = (Rerun, w) /\
    In (api_error Sidebar "timeout") (page w) /\
    session_state w !! RESULT_KEY = Some PNone /\
    interaction Fixture.analyze_fails Fixture.old_store = (Ret tt, w') /\
    calls w' = calls w /\
    existsb is_download (page w') = false /\
    existsb is_error (page w') = false.
Proof.
  assert (analysis_triggered Fixture.analyze_fails Fixture.old_store =
            Some (Fixture.rice_png, Fixture.decoded))
    as Htrig by (vm_compute; reflexivity).
  assert (pipeline_run Fixture.analyze_fails Fixture.rice_png
            (groq_client Fixture.analyze_fails) =
          (Ret PNone,
           {| session_state := ∅;
              page := [api_error Sidebar "timeout"];
              calls :=
                [ChatCompletion (request_for "PNG" Fixture.encoded_bytes)];
              target := Sidebar |})) as Hrun.
  { apply pipeline_on_model_failure; [reflexivity | discriminate |].
    reflexivity. }
  assert (pipeline_output Fixture.analyze_fails Fixture.rice_png
            (groq_client Fixture.analyze_fails) = Ret PNone)
    as Hout by (unfold pipeline_output; now rewrite Hrun).
  do 2 eexists.
  split; [exact (trigger_run _ _ _ _ _ Htrig Hout)|].
  cbn [session_state page calls].
  split.
  { unfold pipeline_page. rewrite Hrun. cbn [snd page].
    rewrite !in_app_iff. do 5 right. now left. }
  split; [apply lookup_insert_eq|].
  split; [exact (interaction_after_trigger _ _ _ _ _ Htrig Hout)|].
  cbn [session_state page calls at_main].
  split; [apply app_nil_r|].
  split; [apply (page_without_result _ PNone Fixture.decoded); reflexivity|].
  reflexivity.
Qed.

(** ** Overwriting the stored result *)

(** C9.  A triggered analysis stores whatever the pipeline returns over the
    previous result and asks for a rerun.  When the analysis fails that
    value is [None]: the store no longer holds the earlier report, and the
    rerun shows neither a report nor a download. *)
Theorem analysis_overwrites_stored_result (p : platform)
    (store : gmap string pyval) (f : uploaded_file) (img : image) :
  analysis_triggered p store = Some (f, img) -> format img <> None ->
  exists report w,
    pipeline_output p f (groq_client p) = Ret report /\
    run_script p store = (Rerun, w) /\
    session_state w = <[RESULT_KEY := report]> store /\
    (pipeline_failed p f (groq_client p) ->
     report = PNone /\
     result_present (session_state w) = false /\
     exists w',
       interaction p store = (Ret tt, w') /\
       session_state w' !! RESULT_KEY = Some PNone /\
       (forall text, ~ report_rendered text w') /\
       existsb is_download (page w') = false).
Proof.
  intros Htrig Hfmt.
  destruct (triggered_inv _ _ _ _ Htrig) as (_ & _ & _ & _ & _ & Hprev).
  apply preview_ok in Hprev.
  destruct (pipeline_returns p f img (groq_client p) Hprev Hfmt)
    as [report Hout].
  exists report. eexists.
  split; [exact Hout|].
  split; [exact (trigger_run p store f img report Htrig Hout)|].
  split; [reflexivity|].
  intros Hfail.
  pose proof (pipeline_failure_returns_none p f _ report Hfail Hout) as ->.
  split; [reflexivity|]. cbn [session_state].
  split; [now rewrite result_present_stored, stored_result_insert|].
  eexists.
  split; [exact (interaction_after_trigger p store f img PNone Htrig Hout)|].
  cbn [session_state at_main]. split; [apply lookup_insert_eq|].
  unfold report_rendered. cbn [page].
  apply (page_without_result p PNone img). reflexivity.
Qed.

Lemma analysis_overwrites_stored_result_witness :
  result_present Fixture.old_store = true /\
  exists w w',
    run_script Fixture.analyze_fails Fixture.old_store = (Rerun, w) /\
    session_state w = <[RESULT_KEY := PNone]> Fixture.old_store /\
    result_present (session_state w) = false /\
    interaction Fixture.analyze_fails Fixture.old_store = (Ret tt, w') /\
    session_state w' !! RESULT_KEY = Some PNone /\
    (forall text, ~ report_rendered text w') /\
    existsb is_download (page w') = false.
Proof.
  split; [vm_compute; reflexivity|].
  destruct (analysis_overwrites_stored_result Fixture.analyze_fails
              Fixture.old_store Fixture.rice_png Fixture.decoded)
    as (report & w & _ & Hrun & Hstore & Hfail).
  - vm_compute. reflexivity.
  - discriminate.
  - destruct Hfail as (-> & Hgone & w' & Hint & Hkey & Hrep & Hdl).
    + right. exists Fixture.encoded_bytes, "PNG", "timeout".
      split; reflexivity.
    + exists w, w'. repeat split; assumption.
Defined.


(** ** The rendered report *)




(** ** The two states of the interface *)

(** C4, as amended.  The interface tells two states apart, and the page
    shows which: a run with a credential draws a report container exactly
    when the store holds a non-empty text, and not when the key is absent
    or holds [None] or the empty text.  A run that reaches the Clear button
    and finds it pressed leads to no result, with the key absent, whatever
    was stored.  A triggered analysis stores what the pipeline returned:
    the interface is in the state result present afterwards exactly when
    that is a non-empty text. *)
Theorem interface_two_states (p : platform) (store : gmap string pyval) :
  (credential_configured p = true ->
   ((exists text, report_rendered text (snd (run_script p store))) <->
    result_present store = true)) /\
  (result_present store = false <->
   store !! RESULT_KEY = None \/
   store !! RESULT_KEY = Some PNone \/
   store !! RESULT_KEY = Some (PStr "")) /\
  (clear_triggered p store = true ->
   exists w,
     run_script p store = (Rerun, w) /\
     session_state w !! RESULT_KEY = None /\
     result_present (session_state w) = false) /\
  (forall f img report,
      analysis_triggered p store = Some (f, img) ->
      pipeline_output p f (groq_client p) = Ret report ->
      exists w,
        run_script p store = (Rerun, w) /\
        session_state w !! RESULT_KEY = Some report /\
        result_present (session_state w) = truthy report).
Proof.
  split; [|split; [|split]].
  - intros Hcred.
    destruct (run_page_shape p store Hcred) as (rest & Hpage & Hside).
    unfold report_rendered. rewrite Hpage. split.
    + intros [text Hin]. apply in_app_or in Hin.
      destruct Hin as [Hin|Hin];
        [|now apply in_sidebar_not_main in Hin].
      apply report_in_main_area in Hin. destruct Hin as [Hres Hne].
      rewrite result_present_stored, Hres.
      destruct text; [congruence | reflexivity].
    + rewrite result_present_stored.
      destruct (stored_result store) as [|text]; [discriminate|].
      intros Hne. exists text. now apply page_with_result.
  - unfold result_present.
    destruct (store !! RESULT_KEY) as [[|[|c text]]|]; cbn; split;
      intros H; auto; try discriminate;
      destruct H as [H|[H|H]]; discriminate.
  - intros Hclear. eexists.
    split; [exact (clear_run p store Hclear)|].
    cbn [session_state]. split; [apply lookup_delete_eq|].
    now rewrite result_present_stored, stored_result_delete.
  - intros f img report Htrig Hout. eexists.
    split; [exact (trigger_run p store f img report Htrig Hout)|].
    cbn [session_state]. split; [apply lookup_insert_eq|].
    now rewrite result_present_stored, stored_result_insert.
Qed.

Lemma interface_two_states_witness :
  ((exists text,
       report_rendered text
         (snd (run_script Fixture.clearing Fixture.old_store))) <->
   result_present Fixture.old_store = true) /\
  (exists w,
      run_script Fixture.clearing Fixture.old_store = (Rerun, w) /\
      session_state w !! RESULT_KEY = None /\
      result_present (session_state w) = false) /\
  (exists w,
      run_script Fixture.analyze_answers ∅ = (Rerun, w) /\
      session_state w !! RESULT_KEY = Some (PStr "Basmati, 3% broken") /\
      result_present (session_state w) =
        truthy (PStr "Basmati, 3% broken")).
Proof.
  split; [|split].
  - apply (proj1 (interface_two_states Fixture.clearing Fixture.old_store)).
    vm_compute. reflexivity.
  - apply (proj1 (proj2 (proj2
             (interface_two_states Fixture.clearing Fixture.old_store)))).
    vm_compute. reflexivity.
  - apply (proj2 (proj2 (proj2
             (interface_two_states Fixture.analyze_answers ∅)))
             Fixture.rice_png Fixture.decoded (PStr "Basmati, 3% broken")).
    + vm_compute. reflexivity.
    + vm_compute. reflexivity.
Defined.

(** C4, as stated, fails when the analysis fails: the trigger is taken, and
    the interface is left without a result, the key holding [None]. *)
Lemma failed_analysis_leaves_no_result :
  analysis_triggered Fixture.analyze_fails ∅ =
    Some (Fixture.rice_png, Fixture.decoded) /\
  exists w,
    run_script Fixture.analyze_fails ∅ = (Rerun, w) /\
    session_state w !! RESULT_KEY = Some PNone /\
    result_present (session_state w) = false.
Proof.
  assert (analysis_triggered Fixture.analyze_fails ∅ =
            Some (Fixture.rice_png, Fixture.decoded))
    as Htrig by (vm_compute; reflexivity).
  assert (pipeline_output Fixture.analyze_fails Fixture.rice_png
            (groq_client Fixture.analyze_fails) = Ret PNone)
    as Hout by (vm_compute; reflexivity).
  split; [exact Htrig|]. eexists.
  split; [exact (trigger_run _ ∅ _ _ _ Htrig Hout)|].
  cbn [session_state]. split; [apply lookup_insert_eq|].
  now rewrite result_present_stored, stored_result_insert.
Qed.


(** * Further properties of the script *)

(** ** Outcomes of a run *)

(** X1.  A run ends at [st.stop()] exactly when no credential is
    configured: with a credential it returns, asks for a rerun or dies on
    an exception, and never stops. *)
Theorem run_stops_iff_credential_missing (p : platform)
    (store : gmap string pyval) :
  fst (run_script p store) = Stopped <-> credential_configured p = false.
Proof.
  rewrite run_script_cases. cbv zeta.
  destruct (credential_configured p); [|now split].
  split; [|discriminate]. intros Hstop. exfalso.
  destruct (display_error p (stored_result store)); [discriminate|].
  destruct (clear_clicked p); [discriminate|].
  destruct (file_uploader p) as [f|]; [|discriminate].
  destruct (preview p f) as [img|e]; [|discriminate].
  destruct (analyze_clicked p); [|discriminate].
  destruct (pipeline_output_cases p f (groq_client p)) as [[r Hr]|[e Hr]];
    rewrite Hr in Hstop; discriminate.
Qed.

(** X2.  A run reads and writes the session store only under
    ['analysis_result']: every other key keeps its value, whatever the run
    does. *)
Theorem run_keeps_other_keys (p : platform) (store : gmap string pyval)
    (key : string) :
  key <> RESULT_KEY ->
  session_state (snd (run_script p store)) !! key = store !! key.
Proof.
  intros Hkey. rewrite run_script_cases. cbv zeta.
  destruct (credential_configured p); [|reflexivity].
  destruct (display_error p (stored_result store)); [reflexivity|].
  destruct (clear_clicked p);
    [cbn; now rewrite lookup_delete_ne by congruence|].
  destruct (file_uploader p) as [f|]; [|reflexivity].
  destruct (preview p f) as [img|e]; [|reflexivity].
  destruct (analyze_clicked p); [|reflexivity].
  destruct (pipeline_output p f (groq_client p)); try reflexivity.
  cbn. now rewrite lookup_insert_ne by congruence.
Qed.

Lemma run_keeps_other_keys_witness :
  session_state (snd (run_script Fixture.analyze_answers
                        Scenario.busy_store)) !! "language" =
    Scenario.busy_store !! "language".
Proof.
  apply (run_keeps_other_keys Fixture.analyze_answers Scenario.busy_store
           "language").
  discriminate.
Defined.

(** X3.  The calls that leave the script in one run are the layout call
    for a stored report that the parser accepts, if a credential is
    configured, followed by the calls of the pipeline, if the run reached
    it.  So a run sends at most one request to the model, and none unless
    the analysis was triggered. *)
Theorem run_call_log (p : platform) (store : gmap string pyval) :
  calls (snd (run_script p store)) =
    (if credential_configured p
     then main_area_calls p (stored_result store) else [])
    ++ match analysis_triggered p store with
       | Some (f, _) => pipeline_calls p f (groq_client p)
       | None => []
       end /\
  requests_sent (calls (snd (run_script p store))) <= 1 /\
  (analysis_triggered p store = None ->
   requests_sent (calls (snd (run_script p store))) = 0).
Proof.
  assert (forall v, requests_sent (main_area_calls p v) = 0) as Hmain.
  { intros v. unfold main_area_calls.
    destruct (truthy v); [destruct (markup_error p _)|]; reflexivity. }
  assert (forall f, requests_sent (pipeline_calls p f (groq_client p)) <= 1)
    as Hpipe.
  { intros f.
    destruct (pipeline_calls_cases p f (groq_client p))
      as [->|(b & fm & _ & _ & ->)]; cbn; auto. }
  assert (forall a b,
             requests_sent (a ++ b) = requests_sent a + requests_sent b)
    as Happ.
  { intros a b. unfold requests_sent.
    now rewrite filter_app, length_app. }
  assert (calls (snd (run_script p store)) =
            (if credential_configured p
             then main_area_calls p (stored_result store) else [])
            ++ match analysis_triggered p store with
               | Some (f, _) => pipeline_calls p f (groq_client p)
               | None => []
               end) as Hlog.
  { rewrite run_script_cases. cbv zeta.
    unfold analysis_triggered, display_completes.
    destruct (credential_configured p); [|reflexivity].
    destruct (display_error p (stored_result store));
      [cbn; now rewrite app_nil_r|].
    destruct (clear_clicked p); [cbn; now rewrite app_nil_r|].
    destruct (file_uploader p) as [f|];
      [|destruct (analyze_clicked p); cbn; now rewrite app_nil_r].
    destruct (preview p f) as [img|e];
      [|destruct (analyze_clicked p); cbn; now rewrite app_nil_r].
    destruct (analyze_clicked p); [|cbn; now rewrite app_nil_r].
    destruct (pipeline_output p f (groq_client p)); reflexivity. }
  split; [exact Hlog|]. rewrite Hlog, Happ.
  assert (requests_sent
            (if credential_configured p
             then main_area_calls p (stored_result store) else []) = 0)
    as -> by (destruct (credential_configured p); auto).
  split.
  - destruct (analysis_triggered p store) as [[f img]|]; cbn; auto.
  - intros ->. reflexivity.
Qed.

(** X4.  The preview of the upload is not guarded: when opening the file
    or loading its raster raises, a run that reached the sidebar dies on
    that exception after the sidebar head, whether or not Analyze is
    pressed.  No Analyze button is drawn, no error message is written, the
    pipeline is not entered and the store is left alone. *)
Theorem undecodable_upload_ends_run (p : platform)
    (store : gmap string pyval) (f : uploaded_file) (e : string) :
  credential_configured p = true -> display_completes p store = true ->
  clear_clicked p = false ->
  file_uploader p = Some f -> preview p f = Raise e ->
  run_script p store =
    (Uncaught e,
     at_main store
       (PREAMBLE ++ main_area p (stored_result store) ++ SIDEBAR_HEAD)
       (main_area_calls p (stored_result store))).
Proof.
  intros Hcred Hdisp Hclear Hup Hprev. rewrite run_script_cases. cbv zeta.
  rewrite Hcred, (display_completes_error p store Hdisp).
  rewrite Hclear, Hup, Hprev. now rewrite <- app_assoc.
Qed.

Lemma undecodable_upload_ends_run_witness :
  run_script Scenario.truncated Fixture.old_store =
    (Uncaught "image file is truncated",
     at_main Fixture.old_store
       (PREAMBLE
        ++ main_area Scenario.truncated (stored_result Fixture.old_store)
        ++ SIDEBAR_HEAD)
       (main_area_calls Scenario.truncated
          (stored_result Fixture.old_store))).
Proof.
  apply (undecodable_upload_ends_run Scenario.truncated Fixture.old_store
           Fixture.rice_png "image file is truncated").
  - vm_compute. reflexivity.
  - vm_compute. reflexivity.
  - reflexivity.
  - reflexivity.
  - reflexivity.
Defined.

(** X5.  Clear is handled before the sidebar exists: the run that reaches
    the button and finds it pressed writes to the main area only, sends
    nothing to the model even if Analyze is reported pressed too, and
    removes the key; on a store without a result it changes nothing. *)
Theorem clear_skips_sidebar_and_model (p : platform)
    (store : gmap string pyval) :
  clear_triggered p store = true ->
  exists w,
    run_script p store = (Rerun, w) /\
    session_state w = delete RESULT_KEY store /\
    Forall (fun ce => fst ce = MainArea) (page w) /\
    requests_sent (calls w) = 0 /\
    (store !! RESULT_KEY = None -> session_state w = store).
Proof.
  intros Hclear. rewrite (clear_run p store Hclear).
  eexists. split; [reflexivity|]. cbn [session_state page calls].
  split; [reflexivity|]. split; [|split].
  - apply main_area_in_main.
  - unfold main_area_calls.
    destruct (truthy (stored_result store));
      [destruct (markup_error p _)|]; reflexivity.
  - intros Habsent. now apply delete_id.
Qed.

Lemma clear_skips_sidebar_and_model_witness :
  exists w,
    run_script Scenario.both_pressed Fixture.old_store = (Rerun, w) /\
    session_state w = delete RESULT_KEY Fixture.old_store /\
    Forall (fun ce => fst ce = MainArea) (page w) /\
    requests_sent (calls w) = 0 /\
    (Fixture.old_store !! RESULT_KEY = None ->
     session_state w = Fixture.old_store).
Proof.
  apply (clear_skips_sidebar_and_model Scenario.both_pressed
           Fixture.old_store).
  vm_compute. reflexivity.
Defined.


(** ** Interactions *)

(** The run that follows a rerun request never asks for another one, never
    stops, and writes no error element. *)
Lemma released_run (p : platform) (store : gmap string pyval)
    (cs : list call) :
  credential_configured p = true ->
  fst (main (released p) (at_main store [] cs)) <> Rerun /\
  existsb is_error (page (snd (main (released p) (at_main store [] cs)))) =
    false.
Proof.
  intros Hcred. rewrite (released_cases p store cs Hcred). cbv zeta.
  assert (existsb is_error (PREAMBLE ++ main_area p (stored_result store)) =
            false) as Hmain.
  { unfold main_area, display_error, report_block.
    destruct (truthy (stored_result store));
      [destruct (markup_error p _)|]; reflexivity. }
  destruct (display_error p (stored_result store)) as [e|].
  { split; [discriminate | exact Hmain]. }
  destruct (file_uploader p) as [f|].
  2:{ split; [discriminate|]. cbn [snd page at_main].
      now rewrite existsb_app, Hmain. }
  destruct (preview p f) as [img|e]; (split; [discriminate|]);
    cbn [snd page at_main]; now rewrite existsb_app, Hmain.
Qed.

Lemma rerun_needs_credential (p : platform) (store : gmap string pyval) :
  fst (run_script p store) = Rerun -> credential_configured p = true.
Proof.
  rewrite run_script_cases. cbv zeta.
  destruct (credential_configured p); [reflexivity | discriminate].
Qed.

(** X6.  A rerun never asks for another one: an interaction is over after
    at most two runs of the script, and it never ends at [st.stop()] once
    the first run went through. *)
Theorem interaction_settles (p : platform) (store : gmap string pyval) :
  fst (interaction p store) <> Rerun.
Proof.
  unfold interaction.
  pose proof (rerun_needs_credential p store) as Hcred.
  destruct (run_script p store) as [[[]| | |e] w]; cbv beta iota;
    cbn [fst] in *; try discriminate.
  exact (proj1 (released_run p (session_state w) (calls w)
                  (Hcred eq_refl))).
Qed.

(** X7.  Whenever a run ends in [st.rerun()], the page that the rerun draws
    holds no error element: a message written by the analysis just before
    the rerun is not drawn again. *)
Theorem rerun_page_has_no_error (p : platform) (store : gmap string pyval) :
  fst (run_script p store) = Rerun ->
  existsb is_error (page (snd (interaction p store))) = false.
Proof.
  intros Hrerun. unfold interaction.
  pose proof (rerun_needs_credential p store Hrerun) as Hcred.
  destruct (run_script p store) as [o w]. cbn [fst] in Hrerun. subst o.
  cbv beta iota.
  exact (proj2 (released_run p (session_state w) (calls w) Hcred)).
Qed.

Lemma rerun_page_has_no_error_witness :
  existsb is_error
    (page (snd (interaction Fixture.analyze_fails Fixture.old_store))) =
    false.
Proof.
  apply (rerun_page_has_no_error Fixture.analyze_fails Fixture.old_store).
  vm_compute. reflexivity.
Defined.

(** ** Edges of the pipeline *)

(** X8.  A response without any choice is handled like a failed call: the
    [IndexError] of [choices[0]] is caught, its message is written as an
    API communication error and [None] is returned, after the one
    request. *)
Theorem response_without_choices_is_api_error (p : platform)
    (f : uploaded_file) (cl : client) (w : world) (buffer : list byte)
    (fmt : string) (resp : response) :
  encode_upload p f = Encoded buffer (Some fmt) -> buffer <> [] ->
  cl (request_for fmt buffer) = Ok resp -> choices resp = [] ->
  generate_rice_report p f cl w =
    (Ret PNone,
     add_page (add_calls w [ChatCompletion (request_for fmt buffer)])
       [api_error (target w) "list index out of range"]).
Proof.
  intros Henc Hne Hresp Hnone.
  rewrite generate_rice_report_run, Henc.
  destruct buffer as [|x rest]; [congruence|].
  cbv zeta. unfold first_answer. now rewrite Hresp, Hnone.
Qed.

Lemma response_without_choices_is_api_error_witness :
  generate_rice_report Scenario.analyze_choiceless Fixture.rice_png
    Scenario.choiceless blank_sidebar =
    (Ret PNone,
     add_page
       (add_calls blank_sidebar
          [ChatCompletion (request_for "PNG" Fixture.encoded_bytes)])
       [api_error (target blank_sidebar) "list index out of range"]).
Proof.
  apply (response_without_choices_is_api_error Scenario.analyze_choiceless
           Fixture.rice_png Scenario.choiceless blank_sidebar
           Fixture.encoded_bytes "PNG" {| choices := [] |}).
  - reflexivity.
  - discriminate.
  - reflexivity.
  - reflexivity.
Defined.

(** X9.  When the first choice of the response carries no text, the
    analysis fails without a word: the run sends its one request, writes
    no error element, stores [None] and asks for the rerun. *)
Theorem answer_without_text_fails_silently (p : platform)
    (store : gmap string pyval) (f : uploaded_file) (img : image)
    (buffer : list byte) (fmt : string) (resp : response) (first : message)
    (more : list message) :
  analysis_triggered p store = Some (f, img) ->
  encode_upload p f = Encoded buffer (Some fmt) -> buffer <> [] ->
  groq_client p (request_for fmt buffer) = Ok resp ->
  choices resp = first :: more -> content first = PNone ->
  exists w,
    run_script p store = (Rerun, w) /\
    session_state w !! RESULT_KEY = Some PNone /\
    existsb is_error (page w) = false /\
    requests_sent (calls w) = 1.
Proof.
  intros Htrig Henc Hne Hresp Hfirst Hnone.
  assert (first_answer (groq_client p) (request_for fmt buffer) = Ok PNone)
    as Hans by (unfold first_answer; now rewrite Hresp, Hfirst, Hnone).
  pose proof (pipeline_on_answer p f _ buffer fmt _ Henc Hne Hans) as Hrun.
  assert (pipeline_output p f (groq_client p) = Ret PNone) as Hout
    by (unfold pipeline_output; now rewrite Hrun).
  eexists. split; [exact (trigger_run p store f img PNone Htrig Hout)|].
  cbn [session_state page calls].
  split; [apply lookup_insert_eq|].
  unfold pipeline_page, pipeline_calls. rewrite Hrun. cbn [snd page calls].
  split.
  - unfold main_area, display_error, report_block. rewrite !existsb_app.
    destruct (truthy (stored_result store));
      [destruct (markup_error p _)|]; reflexivity.
  - unfold requests_sent, main_area_calls.
    destruct (truthy (stored_result store));
      [destruct (markup_error p _)|]; reflexivity.
Qed.

Lemma answer_without_text_fails_silently_witness :
  exists w,
    run_script Scenario.analyze_wordless Fixture.old_store = (Rerun, w) /\
    session_state w !! RESULT_KEY = Some PNone /\
    existsb is_error (page w) = false /\
    requests_sent (calls w) = 1.
Proof.
  apply (answer_without_text_fails_silently Scenario.analyze_wordless
           Fixture.old_store Fixture.rice_png Fixture.decoded
           Fixture.encoded_bytes "PNG"
           {| choices := [ {| content := PNone |} ] |}
           {| content := PNone |} []).
  - vm_compute. reflexivity.
  - reflexivity.
  - discriminate.
  - reflexivity.
  - reflexivity.
  - reflexivity.
Defined.


(** ** The document and the request *)

Lemma replace_append (old : ascii) (new a b : string) :
  PyStr.replace old new (a +:+ b) =
    PyStr.replace old new a +:+ PyStr.replace old new b.
Proof.
  induction a as [|c rest IH]; [reflexivity|].
  rewrite append_cons. cbn [PyStr.replace]. rewrite IH.
  destruct (Ascii.eqb c old); [now rewrite append_assoc | reflexivity].
Qed.

Lemma replace_without (old : ascii) (new s : string) :
  PyStr.count old s = 0 -> PyStr.replace old new s = s.
Proof.
  induction s as [|c rest IH]; cbn [PyStr.replace PyStr.count];
    [reflexivity|].
  destruct (Ascii.eqb c old); [discriminate|].
  intros Hrest. now rewrite IH.
Qed.

(** X11.  The generator does not escape the report text: a newline and a
    literal break element written in the text give the same document, so
    markup in the answer of the model reaches the paragraph as markup. *)
Theorem pdf_report_does_not_escape_breaks (p : platform) (a b : string)
    (w : world) :
  generate_pdf_report p (PStr (a +:+ String PyStr.newline b)) w =
    generate_pdf_report p (PStr (a +:+ "<br/>" +:+ b)) w.
Proof.
  rewrite !generate_pdf_report_run.
  unfold markup_error, pdf_of, report_story.
  assert (PyStr.replace PyStr.newline "<br/>" (a +:+ String PyStr.newline b) =
          PyStr.replace PyStr.newline "<br/>" (a +:+ "<br/>" +:+ b)) as ->;
    [|reflexivity].
  rewrite !replace_append. reflexivity.
Qed.

(** X12.  The body paragraph is five characters for every newline of the
    text and the other characters as they are: its length is the length of
    the text plus four per newline, and a text without newlines is passed
    on unchanged. *)
Theorem pdf_body_length (text : string) :
  exists body,
    report_story text =
      [ Paragraph "<b>Rice Quality Report</b>" StyleTitle;
        Spacer 1 12;
        Paragraph body StyleBodyText ] /\
    String.length body =
      String.length text + 4 * PyStr.count PyStr.newline text /\
    (PyStr.count PyStr.newline text = 0 -> body = text).
Proof.
  eexists. split; [reflexivity|]. split.
  - induction text as [|c rest IH]; [reflexivity|].
    cbn [PyStr.replace PyStr.count String.length].
    destruct (Ascii.eqb c PyStr.newline).
    + rewrite length_append, IH. cbn [String.length]. lia.
    + cbn [String.length]. rewrite IH. lia.
  - apply replace_without.
Qed.

(** X13.  The pipeline adds to the call log nothing or exactly one request.
    That request names the model [llama-3.2-11b-vision-preview], carries
    the fixed prompt, temperature 0.2, at most 400 tokens and top-p 0.5,
    and its image URL is [data:image/<format in lower case>;base64,]
    followed by a payload that decodes to the bytes Pillow wrote. *)
Theorem pipeline_sends_encoded_image (p : platform) (f : uploaded_file)
    (cl : client) (w : world) :
  exists added,
    calls (snd (generate_rice_report p f cl w)) = calls w ++ added /\
    (added = [] \/
     exists req buffer fmt payload,
       added = [ChatCompletion req] /\
       encode_upload p f = Encoded buffer (Some fmt) /\
       model req = "llama-3.2-11b-vision-preview" /\
       prompt_text req = PROMPT /\
       temperature req = 2 # 10 /\
       max_tokens req = 400%Z /\
       top_p req = 5 # 10 /\
       image_url req =
         "data:image/" +:+ PyStr.lower fmt +:+ ";base64," +:+ payload /\
       Base64.b64decode payload = Some buffer).
Proof.
  rewrite generate_rice_report_run.
  destruct (encode_upload p f) as [e|[|x rest] [fmt|]] eqn:Henc;
    cbv zeta;
    try (exists []; split; [cbn; now rewrite app_nil_r | now left]).
  exists [ChatCompletion (request_for fmt (x :: rest))]. split.
  - destruct (first_answer cl _); reflexivity.
  - right.
    exists (request_for fmt (x :: rest)), (x :: rest), fmt,
      (Base64.b64encode (x :: rest)).
    repeat split. apply b64decode_b64encode.
Qed.

(** ** Where things are drawn *)

(** X14.  Whatever [render_sidebar] draws goes to the sidebar, the error
    messages of the pipeline included, and the container that was current
    before the block is current again after it, however the block ends. *)
Theorem sidebar_draws_in_sidebar (p : platform) (cl : client) (w : world) :
  exists added,
    page (snd (render_sidebar p cl w)) = page w ++ added /\
    Forall (fun ce => fst ce = Sidebar) added /\
    target (snd (render_sidebar p cl w)) = target w.
Proof.
  rewrite render_sidebar_run. cbv zeta.
  destruct (file_uploader p) as [f|];
    [|exists SIDEBAR_HEAD; repeat split; repeat constructor].
  destruct (preview p f) as [img|e];
    [|exists SIDEBAR_HEAD; repeat split; repeat constructor].
  destruct (analyze_clicked p).
  - rewrite generate_rice_report_frame by reflexivity.
    exists (SIDEBAR_HEAD ++ upload_controls img ++ [SPINNER]
            ++ pipeline_page p f cl).
    assert (Forall (fun ce : container * element => fst ce = Sidebar)
              (SIDEBAR_HEAD ++ upload_controls img ++ [SPINNER]
               ++ pipeline_page p f cl)) as Hside.
    { rewrite !Forall_app. repeat split; try (repeat constructor).
      destruct (pipeline_page_cases p f cl) as [->|[msg ->]];
        repeat constructor. }
    destruct (pipeline_output p f cl);
      cbn [snd page target add_page retarget with_store session_state calls];
      rewrite <- ?app_assoc; repeat split; exact Hside.
  - exists (SIDEBAR_HEAD ++ upload_controls img).
    cbn [snd page target add_page]. rewrite <- app_assoc.
    repeat split. repeat constructor.
Qed.

(** X15.  Every run configures the page first and once: the first element
    it writes is the page configuration, and no later element is one. *)
Theorem page_config_first_and_once (p : platform)
    (store : gmap string pyval) :
  exists rest,
    page (snd (run_script p store)) = (MainArea, PAGE_CONFIG) :: rest /\
    existsb is_page_config rest = false.
Proof.
  assert (forall v, existsb is_page_config (main_area p v) = false)
    as Hmain.
  { intros v. unfold main_area, display_error, report_block.
    destruct (truthy v); [destruct (markup_error p _)|]; reflexivity. }
  assert (forall f cl, existsb is_page_config (pipeline_page p f cl) = false)
    as Hpipe.
  { intros f cl.
    destruct (pipeline_page_cases p f cl) as [->|[msg ->]]; reflexivity. }
  assert (forall tail,
             existsb is_page_config tail = false ->
             exists rest,
               PREAMBLE ++ tail = (MainArea, PAGE_CONFIG) :: rest /\
               existsb is_page_config rest = false) as Hpre.
  { intros tail Htail. exists ((MainArea, Markdown CSS_STYLES true) :: tail).
    split; [reflexivity | exact Htail]. }
  rewrite run_script_cases. cbv zeta.
  destruct (credential_configured p); [|apply Hpre; reflexivity].
  destruct (display_error p (stored_result store)); [apply Hpre, Hmain|].
  destruct (clear_clicked p); [apply Hpre, Hmain|].
  destruct (file_uploader p) as [f|].
  2:{ cbn [snd page at_main]. rewrite <- app_assoc.
      apply Hpre. now rewrite existsb_app, Hmain. }
  destruct (preview p f) as [img|e].
  2:{ cbn [snd page at_main]. rewrite <- app_assoc.
      apply Hpre. now rewrite existsb_app, Hmain. }
  destruct (analyze_clicked p).
  2:{ cbn [snd page at_main]. rewrite <- app_assoc.
      apply Hpre. now rewrite !existsb_app, Hmain. }
  destruct (pipeline_output p f (groq_client p));
    cbn [snd page at_main]; rewrite <- app_assoc;
    apply Hpre; now rewrite !existsb_app, Hmain, Hpipe.
Qed.






(** ** What the page can show *)

(** X18.  A run draws a report container only for the text it found in the
    store: if the page of a run shows the container around some text, that
    text is the non-empty value stored under ['analysis_result'] when the
    run began.  The result of an analysis made in the same run is not
    shown by that run. *)
Theorem rendered_report_is_the_stored_one (p : platform)
    (store : gmap string pyval) (text : string) :
  report_rendered text (snd (run_script p store)) ->
  store !! RESULT_KEY = Some (PStr text) /\ text <> "".
Proof.
  unfold report_rendered.
  destruct (credential_configured p) eqn:Hcred.
  - destruct (run_page_shape p store Hcred) as (rest & Hpage & Hside).
    rewrite Hpage. intros Hin. apply in_app_or in Hin.
    destruct Hin as [Hin|Hin];
      [|now apply in_sidebar_not_main in Hin].
    apply report_in_main_area in Hin. destruct Hin as [Hres Hne].
    split; [|exact Hne]. unfold stored_result in Hres.
    destruct (store !! RESULT_KEY) as [v|]; cbn in Hres; congruence.
  - rewrite run_script_cases. cbv zeta. rewrite Hcred.
    cbn. intros Hin.
    repeat (destruct Hin as [Hin|Hin]; [discriminate|]). destruct Hin.
Qed.

Lemma rendered_report_is_the_stored_one_witness :
  Fixture.old_store !! RESULT_KEY = Some (PStr "old report") /\
  "old report" <> "".
Proof.
  apply (rendered_report_is_the_stored_one Fixture.analyze_answers
           Fixture.old_store "old report").
  unfold report_rendered. vm_compute. auto 10.
Defined.

